(** * The containerd client wrapper of eliot (package runtime)

    A shallow embedding of [ContainerdClient] and its methods.  The
    runtime engine (containerd, reached through its Go client library) is
    an interface: every call the wrapper makes on it is a request of type
    [rpc R], answered by an instance of [Engine].  Each method is a
    computation in a state-and-trace monad: the state holds the wrapper
    struct and the engine, the trace records the calls made, in order. *)

From Stdlib Require Import String Ascii List ZArith Lia Bool Arith.
From Stdlib Require Import DecimalString DecimalNat.
Import ListNotations.
Local Open Scope list_scope.
Local Open Scope string_scope.

(** ** Errors (github.com/pkg/errors, docker/api/errdefs) *)

(** An error value is either one produced by the engine's client library
    or such an error annotated with a message by [errors.Wrap]/[Wrapf].
    [notFound] tells whether the root error implements the [NotFound()]
    interface that [errdefs.IsNotFound] looks for. *)
Inductive error : Type :=
| engineError (notFound : bool) (msg : string)
| withMessage (cause : error) (msg : string).

(** [err.Error()] *)
Fixpoint Error (e : error) : string :=
  match e with
  | engineError _ msg => msg
  | withMessage cause msg => msg ++ ": " ++ Error cause
  end.

(** [errors.Cause(err)] *)
Fixpoint Cause (e : error) : error :=
  match e with
  | engineError _ _ => e
  | withMessage cause _ => Cause cause
  end.

(** ** Formatting (package fmt) *)

Inductive arg : Type :=
| aString (s : string)
| aUint32 (n : Z)
| aError (e : error).

Definition typeOf (a : arg) : string :=
  match a with
  | aString _ => "string"
  | aUint32 _ => "uint32"
  | aError _ => "*errors.withStack"
  end.

Definition itoa (n : Z) : string := NilZero.string_of_int (Z.to_int n).

(** operand printed with verb [%v] *)
Definition printValue (a : arg) : string :=
  match a with
  | aString s => s
  | aUint32 n => itoa n
  | aError e => Error e
  end.

Definition badVerb (verb : ascii) (a : arg) : string :=
  "%!" ++ String verb ("(" ++ typeOf a ++ "=" ++ printValue a ++ ")").

Definition printArg (a : arg) (verb : ascii) : string :=
  match verb, a with
  | "v"%char, _ => printValue a
  | "s"%char, aString s => s
  | "s"%char, aError e => Error e
  | "d"%char, aUint32 n => itoa n
  | _, _ => badVerb verb a
  end.

Fixpoint extraArgs (a : list arg) : string :=
  match a with
  | [] => ""
  | [x] => typeOf x ++ "=" ++ printValue x
  | x :: rest => typeOf x ++ "=" ++ printValue x ++ ", " ++ extraArgs rest
  end.

(** [fmt.Sprintf], for the verbs without flags that the package uses:
    operands are consumed left to right, a verb without operand prints
    [%!v(MISSING)], operands left over are reported after the text as
    [%!(EXTRA type=value, ...)]. *)
Fixpoint Sprintf (format : string) (a : list arg) : string :=
  match format with
  | EmptyString =>
      match a with
      | [] => ""
      | _ => "%!(EXTRA " ++ extraArgs a ++ ")"
      end
  | String "%"%char EmptyString =>
      "%!(NOVERB)" ++
      match a with
      | [] => ""
      | _ => "%!(EXTRA " ++ extraArgs a ++ ")"
      end
  | String "%"%char (String verb rest) =>
      if Ascii.eqb verb "%"%char then String "%"%char (Sprintf rest a)
      else match a with
           | [] => "%!" ++ String verb ("(MISSING)" ++ Sprintf rest [])
           | x :: a' => printArg x verb ++ Sprintf rest a'
           end
  | String ch rest => String ch (Sprintf rest a)
  end.

(** [errors.Wrap(err, message)] and [errors.Wrapf(err, format, args...)],
    on a non-nil [err] *)
Definition Wrap (err : error) (message : string) : error :=
  withMessage err message.

Definition Wrapf (err : error) (format : string) (a : list arg) : error :=
  withMessage err (Sprintf format a).

(** [errdefs.IsNotFound(err)]: follows [Cause()] to the root error *)
Definition IsNotFound (err : error) : bool :=
  match Cause err with
  | engineError nf _ => nf
  | withMessage _ _ => false
  end.

(** [sub] occurs in [s] *)
Definition Mentions (s sub : string) : Prop :=
  exists pre post, s = pre ++ sub ++ post.

(** ** Contexts (package context) *)

Inductive Context : Type :=
| Background
| timerCtx (id : nat) (parent : Context) (d : Z)   (* context.WithTimeout *)
| cancelCtx (id : nat) (parent : Context).         (* context.WithCancel *)

(** a [context.CancelFunc] is known by the context it cancels *)
Definition CancelFunc : Type := nat.

(** [ctx.Deadline()] reports a deadline: a context derived with
    [WithTimeout] has one, one derived with [WithCancel] has its parent's *)
Fixpoint hasDeadline (ctx : Context) : bool :=
  match ctx with
  | Background => false
  | timerCtx _ _ _ => true
  | cancelCtx _ parent => hasDeadline parent
  end.

(** ** Descriptors (github.com/ernoaapa/can/pkg/model) *)

Module model.

Record Pod : Type := mkPod {
  Name : string;
  Namespace : string
}.

Definition GetNamespace (p : Pod) : string := Namespace p.

Record Container : Type := mkContainer {
  ID : string;
  Image : string
}.

End model.

(** ** Handles of the containerd client library

    The library's containers, images and tasks keep the client they were
    obtained from, and their methods call the engine through it. *)

Module containerd.

(** A [*containerd.Client]: [id] stands for the pointer; every
    successful [containerd.New] yields a new one. *)
Record Client : Type := mkClient {
  id : nat;
  DefaultNamespace : string
}.

Record Image : Type := mkImage {
  Name : string;
  Digest : string;            (* image.Target().Digest *)
  imageClient : Client
}.

Record Container : Type := mkContainer {
  ID : string;
  containerClient : Client
}.

Record Task : Type := mkTask {
  taskID : string;
  Pid : Z;
  taskClient : Client
}.

Inductive Spec : Type := mkSpec (config : string).

(** api/types/task.Status, an [int32] enumeration, and its generated
    [String()]: the name of a listed value, the number of any other *)
Definition Status : Type := Z.

Definition UNKNOWN : Status := 0%Z.
Definition CREATED : Status := 1%Z.
Definition RUNNING : Status := 2%Z.
Definition STOPPED : Status := 3%Z.
Definition PAUSED : Status := 4%Z.
Definition PAUSING : Status := 5%Z.

Definition Status_String (s : Status) : string :=
  match s with
  | 0%Z => "UNKNOWN"
  | 1%Z => "CREATED"
  | 2%Z => "RUNNING"
  | 3%Z => "STOPPED"
  | 4%Z => "PAUSED"
  | 5%Z => "PAUSING"
  | _ => itoa s
  end.

(** api/types/task.Process, as far as the wrapper reads it *)
Record Process : Type := mkProcess {
  processStatus : Status
}.

(** api/services/tasks/v1.GetResponse: [Process] is a pointer, [None]
    when nil *)
Record GetResponse : Type := mkGetResponse {
  responseProcess : option Process
}.

(** api/services/namespaces/v1.Namespace *)
Record Namespace : Type := mkNamespace {
  nsName : string;
  nsLabels : list (string * string)
}.

End containerd.

(** Go's [(value, err)] results: [inl err] when [err != nil]. *)
Definition result (A : Type) : Type := (error + A)%type.

(** ** The runtime engine *)

(** The calls the wrapper makes on the engine, indexed by what they
    answer.  An [option error] answer is Go's [error]: [None] is [nil].
    [TaskService_Get] answers the response as decoded, with or
    without its process. *)
Inductive rpc : Type -> Type :=
| New (address namespace : string) : rpc (option error)
| Client_Containers (ctx : Context) (cl : containerd.Client)
  : rpc (result (list string))
| GenerateSpec (ctx : Context) (cl : containerd.Client) (image : containerd.Image)
  : rpc (result containerd.Spec)
| Client_NewContainer (ctx : Context) (cl : containerd.Client) (id : string)
    (labels : list (string * string)) (spec : containerd.Spec)
    (snapshotter : string) (snapshotView : string * containerd.Image)
    (runtime : string)
  : rpc (option error)
| Container_NewTask (ctx : Context) (c : containerd.Container)
  : rpc (result Z)
| Task_Start (ctx : Context) (t : containerd.Task) : rpc (option error)
| Container_Task (ctx : Context) (c : containerd.Container) : rpc (result Z)
| Task_Delete (ctx : Context) (t : containerd.Task) : rpc (option error)
| Container_Delete (ctx : Context) (c : containerd.Container)
  : rpc (option error)
| Client_Pull (ctx : Context) (cl : containerd.Client) (ref : string)
  : rpc (result (string * string))
| Image_Unpack (ctx : Context) (image : containerd.Image) (snapshotter : string)
  : rpc (option error)
| NamespaceService_List (ctx : Context) (cl : containerd.Client)
  : rpc (result (list containerd.Namespace))
| TaskService_Get (ctx : Context) (cl : containerd.Client) (containerID : string)
  : rpc (result containerd.GetResponse).

Class Engine (E : Type) : Type :=
  respond : forall R : Type, rpc R -> E -> R * E.
Arguments respond {E _ R} _ _.

(** ** The wrapper struct and the trace *)

Record ContainerdClient : Type := mkContainerdClient {
  client : option containerd.Client;
  context : Context;
  timeout : Z;
  address : string
}.

(** methods of [*ContainerdClient] *)
Inductive method : Type :=
| m_getContext
| m_getConnection (namespace : string)
| m_resetConnection
| m_GetContainers (namespace : string)
| m_CreateContainer (pod : model.Pod) (container : model.Container)
| m_StartContainer (container : containerd.Container)
| m_StopContainer (container : containerd.Container)
| m_ensureImagePulled (namespace ref : string)
| m_GetNamespaces
| m_IsContainerRunning (container : containerd.Container)
| m_GetContainerTaskStatus (containerID : string).

Inductive level : Type := DebugLevel | WarnLevel.

(** a run-time panic of the Go program *)
Inductive runtimePanic : Type :=
| nilDereference.     (* invalid memory address or nil pointer dereference *)

(** how a call ends: it returns a value or it panics *)
Inductive completion (A : Type) : Type :=
| Returned (a : A)
| Panicked (p : runtimePanic).
Arguments Returned {A} _.
Arguments Panicked {A} _.

Inductive event : Type :=
| Enter (m : method)                       (* a method is entered *)
| Derived (ctx : Context)                  (* a context is derived *)
| Cancel (cancel : CancelFunc)             (* a cancel function is invoked *)
| Call (R : Type) (r : rpc R) (answer : R) (* an engine call and its answer *)
| Log (l : level) (msg : string).
Arguments Call {R} _ _.

(** ** The state-and-trace monad *)

Section Wrapper.

Context {E : Type} {engine_impl : Engine E}.

(** [c] is the receiver; [contexts] and [clients] count the contexts
    derived and the connections established so far and name the next
    one. *)
Record Sys : Type := mkSys {
  c : ContainerdClient;
  engine : E;
  contexts : nat;
  clients : nat
}.

Definition M (A : Type) : Type := Sys -> A * Sys * list event.

Definition ret {A : Type} (a : A) : M A := fun s => (a, s, []).

Definition bind {A B : Type} (m : M A) (f : A -> M B) : M B :=
  fun s =>
    let '(a, s1, d1) := m s in
    let '(b, s2, d2) := f a s1 in
    (b, s2, (d1 ++ d2)%list).

Definition emit (ev : event) : M unit := fun s => (tt, s, [ev]).

Definition self : M ContainerdClient := fun s => (c s, s, []).

Definition call {R : Type} (r : rpc R) : M R :=
  fun s =>
    let '(answer, e) := respond r (engine s) in
    (answer, mkSys (c s) e (contexts s) (clients s), [Call r answer]).

End Wrapper.

Arguments Sys : clear implicits.
Arguments M : clear implicits.

Declare Scope go_scope.
Delimit Scope go_scope with go.
Notation "x <- m ;; k" := (bind m (fun x => k))
  (at level 100, m at next level, right associativity) : go_scope.
Notation "' pat <- m ;; k" := (bind m (fun x => match x with pat => k end))
  (at level 100, pat pattern, m at next level, right associativity) : go_scope.
Notation "m ;; k" := (bind m (fun _ => k))
  (at level 100, right associativity) : go_scope.
Local Open Scope go_scope.

(** ** The methods *)

Section Methods.

Context {E : Type} {engine_impl : Engine E}.

(** What the file takes from its imports: [model.DefaultNamespace],
    [plugin.RuntimePlugin], and [getContainerLabels] of the package's
    own label helpers. *)
Variable DefaultNamespace : string.
Variable RuntimePlugin : string.
Variable getContainerLabels :
  model.Pod -> model.Container -> list (string * string).

Local Abbreviation M := (M E).

Definition snapshotter : string := "overlayfs".

Definition enter (m : method) : M unit := emit (Enter m).

(** [defer f()] at the head of a body without panics: [f] runs when the
    body has returned, whatever it returned. *)
Definition defer {A : Type} (f : M unit) (body : M A) : M A :=
  a <- body ;; f ;; ret a.

Definition invoke (cancel : CancelFunc) : M unit := emit (Cancel cancel).

Definition Debugf (format : string) (a : list arg) : M unit :=
  emit (Log DebugLevel (Sprintf format a)).

Definition Debugln (msg : string) : M unit := emit (Log DebugLevel msg).

Definition Warnf (format : string) (a : list arg) : M unit :=
  emit (Log WarnLevel (Sprintf format a)).

(** *** package context *)

Definition WithTimeout (parent : Context) (d : Z) : M (Context * CancelFunc) :=
  fun s =>
    let ctx := timerCtx (contexts s) parent d in
    ((ctx, contexts s), mkSys (c s) (engine s) (S (contexts s)) (clients s),
     [Derived ctx]).

Definition WithCancel (parent : Context) : M (Context * CancelFunc) :=
  fun s =>
    let ctx := cancelCtx (contexts s) parent in
    ((ctx, contexts s), mkSys (c s) (engine s) (S (contexts s)) (clients s),
     [Derived ctx]).

(** *** package containerd: the handles built around the engine's answers *)

Definition containerd_New (address namespace : string)
  : M (result containerd.Client) :=
  r <- call (New address namespace) ;;
  match r with
  | Some err => ret (inl err)
  | None =>
      fun s =>
        (inr (containerd.mkClient (clients s) namespace),
         mkSys (c s) (engine s) (contexts s) (S (clients s)), [])
  end.

Definition Containers (client : containerd.Client) (ctx : Context)
  : M (result (list containerd.Container)) :=
  r <- call (Client_Containers ctx client) ;;
  match r with
  | inl err => ret (inl err)
  | inr ids => ret (inr (map (fun i => containerd.mkContainer i client) ids))
  end.

Definition NewContainer (client : containerd.Client) (ctx : Context)
    (id : string) (labels : list (string * string)) (spec : containerd.Spec)
    (snapshotter : string) (snapshotView : string * containerd.Image)
    (runtime : string)
  : M (result containerd.Container) :=
  r <- call (Client_NewContainer ctx client id labels spec snapshotter
               snapshotView runtime) ;;
  match r with
  | Some err => ret (inl err)
  | None => ret (inr (containerd.mkContainer id client))
  end.

Definition NewTask (container : containerd.Container) (ctx : Context)
  : M (result containerd.Task) :=
  r <- call (Container_NewTask ctx container) ;;
  match r with
  | inl err => ret (inl err)
  | inr pid =>
      ret (inr (containerd.mkTask (containerd.ID container) pid
                  (containerd.containerClient container)))
  end.

Definition Task (container : containerd.Container) (ctx : Context)
  : M (result containerd.Task) :=
  r <- call (Container_Task ctx container) ;;
  match r with
  | inl err => ret (inl err)
  | inr pid =>
      ret (inr (containerd.mkTask (containerd.ID container) pid
                  (containerd.containerClient container)))
  end.

Definition Pull (client : containerd.Client) (ctx : Context) (ref : string)
  : M (result containerd.Image) :=
  r <- call (Client_Pull ctx client ref) ;;
  match r with
  | inl err => ret (inl err)
  | inr (name, digest) => ret (inr (containerd.mkImage name digest client))
  end.

(** *** ContainerdClient *)

(** [NewContainerdClient] *)
Definition NewContainerdClient (context : Context) (timeout : Z)
    (address : string) : ContainerdClient :=
  mkContainerdClient None context timeout address.

Definition getContext : M (Context * CancelFunc) :=
  enter m_getContext ;;
  c <- self ;;
  let ctx := context c in
  if (timeout c >? 0)%Z then WithTimeout ctx (timeout c)
  else WithCancel ctx.

Definition getConnection (namespace : string) : M (result containerd.Client) :=
  enter (m_getConnection namespace) ;;
  c <- self ;;
  r <- containerd_New (address c) namespace ;;
  match r with
  | inl err =>
      ret (inl (Wrapf err "Unable to create connection to containerd" []))
  | inr client => ret (inr client)
  end.

Definition resetConnection : M unit :=
  enter m_resetConnection ;;
  fun s =>
    (tt,
     mkSys (mkContainerdClient None (context (c s)) (timeout (c s))
              (address (c s)))
       (engine s) (contexts s) (clients s),
     []).

(** [GetContainers] *)
Definition GetContainers (namespace : string)
  : M (result (list containerd.Container)) :=
  enter (m_GetContainers namespace) ;;
  '(ctx, cancel) <- getContext ;;
  defer (invoke cancel) (
    r <- getConnection namespace ;;
    match r with
    | inl err => ret (inl err)
    | inr client =>
        r <- Containers client ctx ;;
        match r with
        | inl err =>
            resetConnection ;;
            ret (inl (Wrap err "Error while getting list of containers"))
        | inr containers => ret (inr containers)
        end
    end).

Definition ensureImagePulled (namespace ref : string)
  : M (result containerd.Image) :=
  enter (m_ensureImagePulled namespace ref) ;;
  '(ctx, cancel) <- getContext ;;
  defer (invoke cancel) (
    r <- getConnection namespace ;;
    match r with
    | inl err => ret (inl err)
    | inr client =>
        r <- Pull client ctx ref ;;
        match r with
        | inl err =>
            resetConnection ;;
            ret (inl (Wrapf err "Error pulling image [%s]" [aString ref]))
        | inr image =>
            Debugf "Unpacking container image [%s]..."
              [aString (containerd.Digest image)] ;;
            err <- call (Image_Unpack ctx image snapshotter) ;;
            match err with
            | Some err =>
                resetConnection ;;
                ret (inl (Wrapf err "Error while unpacking image [%s]"
                            [aString (containerd.Digest image)]))
            | None => ret (inr image)
            end
        end
    end).

(** [CreateContainer] *)
Definition CreateContainer (pod : model.Pod) (container : model.Container)
  : M (result containerd.Container) :=
  enter (m_CreateContainer pod container) ;;
  '(ctx, cancel) <- getContext ;;
  defer (invoke cancel) (
    r <- getConnection (model.GetNamespace pod) ;;
    match r with
    | inl err => ret (inl err)
    | inr client =>
        r <- ensureImagePulled (model.GetNamespace pod)
               (model.Image container) ;;
        match r with
        | inl err => ret (inl err)
        | inr image =>
            r <- call (GenerateSpec ctx client image) ;;
            match r with
            | inl err => ret (inl err)
            | inr spec =>
                Debugf "Create new container from image %s..."
                  [aString (containerd.Name image)] ;;
                r <- NewContainer client ctx (model.ID container)
                       (getContainerLabels pod container) spec snapshotter
                       (model.ID container, image)
                       (Sprintf "%s.%s"
                          [aString RuntimePlugin; aString "linux"]) ;;
                match r with
                | inl err =>
                    resetConnection ;;
                    ret (inl (Wrapf err
                                "Failed to create new container from image %s"
                                [aString (containerd.Name image)]))
                | inr created => ret (inr created)
                end
            end
        end
    end).

(** [StartContainer] *)
Definition StartContainer (container : containerd.Container)
  : M (option error) :=
  enter (m_StartContainer container) ;;
  '(ctx, cancel) <- getContext ;;
  defer (invoke cancel) (
    Debugf "Create task in container: %s"
      [aString (containerd.ID container)] ;;
    r <- NewTask container ctx ;;
    match r with
    | inl err =>
        resetConnection ;;
        ret (Some (Wrapf err "Error while creating task for container [%s]"
                     [aString (containerd.ID container)]))
    | inr task =>
        Debugln "Starting task..." ;;
        err <- call (Task_Start ctx task) ;;
        match err with
        | Some err =>
            resetConnection ;;
            ret (Some (Wrapf err "Failed to start task in container"
                         [aString (containerd.ID container)]))
        | None =>
            Debugf "Task started (pid %d)" [aUint32 (containerd.Pid task)] ;;
            ret None
        end
    end).

(** [StopContainer] *)
Definition StopContainer (container : containerd.Container)
  : M (option error) :=
  enter (m_StopContainer container) ;;
  '(ctx, cancel) <- getContext ;;
  defer (invoke cancel) (
    r <- Task container ctx ;;
    match r with
    | inr task => _ <- call (Task_Delete ctx task) ;; ret tt
    | inl _ => ret tt
    end ;;
    err <- call (Container_Delete ctx container) ;;
    match err with
    | Some err =>
        resetConnection ;;
        ret (Some (Wrapf err "Failed to delete container %s"
                     [aString (containerd.ID container)]))
    | None => ret None
    end).

(** [getNamespaces]: the loop appends to [result], left to right *)
Definition getNamespaces (namespaces : list containerd.Namespace)
  : list string :=
  fold_left
    (fun result namespace =>
       if negb (containerd.nsName namespace =? "default")
       then (result ++ [containerd.nsName namespace])%list
       else result)
    namespaces [].

(** [GetNamespaces] *)
Definition GetNamespaces : M (result (list string)) :=
  enter m_GetNamespaces ;;
  '(ctx, cancel) <- getContext ;;
  defer (invoke cancel) (
    r <- getConnection DefaultNamespace ;;
    match r with
    | inl err => ret (inl err)
    | inr client =>
        r <- call (NamespaceService_List ctx client) ;;
        match r with
        | inl err => ret (inl err)
        | inr resp => ret (inr (getNamespaces resp))
        end
    end).

(** [IsContainerRunning] *)
Definition IsContainerRunning (container : containerd.Container)
  : M (bool * option error) :=
  enter (m_IsContainerRunning container) ;;
  '(ctx, cancel) <- getContext ;;
  defer (invoke cancel) (
    r <- Task container ctx ;;
    match r with
    | inl err =>
        if IsNotFound err then ret (false, None)
        else ret (false, Some err)
    | inr _ => ret (true, None)
    end).

(** [GetContainerTaskStatus]; the deferred [cancel] runs when the body
    panics as when it returns *)
Definition GetContainerTaskStatus (containerID : string)
  : M (completion string) :=
  enter (m_GetContainerTaskStatus containerID) ;;
  '(ctx, cancel) <- getContext ;;
  defer (invoke cancel) (
    r <- getConnection DefaultNamespace ;;
    match r with
    | inl err =>
        Warnf "Unable to get connection for resolving task status for containerID %s"
          [aString containerID] ;;
        ret (Returned "UNKNOWN")
    | inr client =>
        r <- call (TaskService_Get ctx client containerID) ;;
        match r with
        | inl err =>
            Warnf "Unable to resolve Container task status: %s"
              [aError err] ;;
            ret (Returned "UNKNOWN")
        | inr resp =>
            match containerd.responseProcess resp with
            | None => ret (Panicked nilDereference)
            | Some process =>
                ret (Returned (containerd.Status_String
                                 (containerd.processStatus process)))
            end
        end
    end).

(** ** Sequences of operations on one client instance *)

(** the exported methods *)
Inductive operation : Type :=
| opGetContainers (namespace : string)
| opCreateContainer (pod : model.Pod) (container : model.Container)
| opStartContainer (container : containerd.Container)
| opStopContainer (container : containerd.Container)
| opGetNamespaces
| opIsContainerRunning (container : containerd.Container)
| opGetContainerTaskStatus (containerID : string).

Definition errorOf {A : Type} (r : result A) : option error :=
  match r with
  | inl err => Some err
  | inr _ => None
  end.

(** an operation, keeping the error it returns ([None] as well when it
    returns none or panics) *)
Definition run (op : operation) : M (option error) :=
  match op with
  | opGetContainers namespace =>
      r <- GetContainers namespace ;; ret (errorOf r)
  | opCreateContainer pod container =>
      r <- CreateContainer pod container ;; ret (errorOf r)
  | opStartContainer container => StartContainer container
  | opStopContainer container => StopContainer container
  | opGetNamespaces => r <- GetNamespaces ;; ret (errorOf r)
  | opIsContainerRunning container =>
      r <- IsContainerRunning container ;; ret (snd r)
  | opGetContainerTaskStatus containerID =>
      _ <- GetContainerTaskStatus containerID ;; ret None
  end.

(** the operations that call [getConnection] *)
Definition connects (op : operation) : bool :=
  match op with
  | opGetContainers _ | opCreateContainer _ _ | opGetNamespaces
  | opGetContainerTaskStatus _ => true
  | opStartContainer _ | opStopContainer _ | opIsContainerRunning _ => false
  end.

Definition methodOf (op : operation) : method :=
  match op with
  | opGetContainers namespace => m_GetContainers namespace
  | opCreateContainer pod container => m_CreateContainer pod container
  | opStartContainer container => m_StartContainer container
  | opStopContainer container => m_StopContainer container
  | opGetNamespaces => m_GetNamespaces
  | opIsContainerRunning container => m_IsContainerRunning container
  | opGetContainerTaskStatus containerID =>
      m_GetContainerTaskStatus containerID
  end.

(** the container handle an operation is given *)
Definition handleOf (op : operation) : option containerd.Container :=
  match op with
  | opStartContainer container | opStopContainer container
  | opIsContainerRunning container => Some container
  | _ => None
  end.

(** the handle an operation is given, if any, is of a connection
    established before *)
Definition established (s : Sys E) (op : operation) : Prop :=
  match handleOf op with
  | Some container =>
      containerd.id (containerd.containerClient container) < clients s
  | None => True
  end.

(** the context [getContext] derives in state [s] *)
Definition derivedContext (s : Sys E) : Context :=
  if (timeout (c s) >? 0)%Z
  then timerCtx (contexts s) (context (c s)) (timeout (c s))
  else cancelCtx (contexts s) (context (c s)).

(** [s] with the cached connection field set to [x] *)
Definition withClient (x : option containerd.Client) (s : Sys E) : Sys E :=
  mkSys (mkContainerdClient x (context (c s)) (timeout (c s)) (address (c s)))
    (engine s) (contexts s) (clients s).

(** what a run returns, the state it ends in, the trace it leaves *)
Definition value {A : Type} (x : A * Sys E * list event) : A := fst (fst x).
Definition final {A : Type} (x : A * Sys E * list event) : Sys E :=
  snd (fst x).
Definition trace {A : Type} (x : A * Sys E * list event) : list event :=
  snd x.

(** the states a client instance goes through, operation after
    operation, from its construction *)
Inductive reachable : Sys E -> Prop :=
| reachable_new : forall context timeout address e n k,
    reachable (mkSys (NewContainerdClient context timeout address) e n k)
| reachable_run : forall s op,
    reachable s -> reachable (final (run op s)).

End Methods.

Arguments reachable {E engine_impl} _ _ _ _.

(** ** Reading a trace *)

Inductive rpcKind : Type :=
| kNew | kContainers | kGenerateSpec | kNewContainer | kNewTask | kTaskStart
| kTask | kTaskDelete | kContainerDelete | kPull | kUnpack | kNamespaceList
| kTaskGet.

Definition kind {R : Type} (r : rpc R) : rpcKind :=
  match r with
  | New _ _ => kNew
  | Client_Containers _ _ => kContainers
  | GenerateSpec _ _ _ => kGenerateSpec
  | Client_NewContainer _ _ _ _ _ _ _ _ => kNewContainer
  | Container_NewTask _ _ => kNewTask
  | Task_Start _ _ => kTaskStart
  | Container_Task _ _ => kTask
  | Task_Delete _ _ => kTaskDelete
  | Container_Delete _ _ => kContainerDelete
  | Client_Pull _ _ _ => kPull
  | Image_Unpack _ _ _ => kUnpack
  | NamespaceService_List _ _ => kNamespaceList
  | TaskService_Get _ _ _ => kTaskGet
  end.

(** the error an engine call answered with, if it did *)
Definition failure {R : Type} (r : rpc R) : R -> option error :=
  match r in rpc R return R -> option error with
  | New _ _ => (fun err : option error => err)
  | Client_Containers _ _ => errorOf
  | GenerateSpec _ _ _ => errorOf
  | Client_NewContainer _ _ _ _ _ _ _ _ => (fun err : option error => err)
  | Container_NewTask _ _ => errorOf
  | Task_Start _ _ => (fun err : option error => err)
  | Container_Task _ _ => errorOf
  | Task_Delete _ _ => (fun err : option error => err)
  | Container_Delete _ _ => (fun err : option error => err)
  | Client_Pull _ _ _ => errorOf
  | Image_Unpack _ _ _ => (fun err : option error => err)
  | NamespaceService_List _ _ => errorOf
  | TaskService_Get _ _ _ => errorOf
  end.

(** the connection an engine call goes through; [New] goes through none *)
Definition connection {R : Type} (r : rpc R) : option containerd.Client :=
  match r with
  | New _ _ => None
  | Client_Containers _ cl => Some cl
  | GenerateSpec _ cl _ => Some cl
  | Client_NewContainer _ cl _ _ _ _ _ _ => Some cl
  | Container_NewTask _ c => Some (containerd.containerClient c)
  | Task_Start _ t => Some (containerd.taskClient t)
  | Container_Task _ c => Some (containerd.containerClient c)
  | Task_Delete _ t => Some (containerd.taskClient t)
  | Container_Delete _ c => Some (containerd.containerClient c)
  | Client_Pull _ cl _ => Some cl
  | Image_Unpack _ image _ => Some (containerd.imageClient image)
  | NamespaceService_List _ cl => Some cl
  | TaskService_Get _ cl _ => Some cl
  end.

(** the context an engine call is made under; [New] takes none *)
Definition contextOf {R : Type} (r : rpc R) : option Context :=
  match r with
  | New _ _ => None
  | Client_Containers ctx _ => Some ctx
  | GenerateSpec ctx _ _ => Some ctx
  | Client_NewContainer ctx _ _ _ _ _ _ _ => Some ctx
  | Container_NewTask ctx _ => Some ctx
  | Task_Start ctx _ => Some ctx
  | Container_Task ctx _ => Some ctx
  | Task_Delete ctx _ => Some ctx
  | Container_Delete ctx _ => Some ctx
  | Client_Pull ctx _ _ => Some ctx
  | Image_Unpack ctx _ _ => Some ctx
  | NamespaceService_List ctx _ => Some ctx
  | TaskService_Get ctx _ _ => Some ctx
  end.

(** the engine calls of a trace, in order: which call, how it ended *)
Fixpoint answers (d : list event) : list (rpcKind * option error) :=
  match d with
  | [] => []
  | Call r a :: d' => (kind r, failure r a) :: answers d'
  | _ :: d' => answers d'
  end.

(** the connections the engine calls of a trace go through *)
Fixpoint connectionsUsed (d : list event) : list nat :=
  match d with
  | [] => []
  | Call r _ :: d' =>
      match connection r with
      | Some cl => containerd.id cl :: connectionsUsed d'
      | None => connectionsUsed d'
      end
  | _ :: d' => connectionsUsed d'
  end.

(** how many times a method satisfying [p] is entered in a trace *)
Definition entered (p : method -> bool) (d : list event) : nat :=
  length (filter (fun ev => match ev with Enter m => p m | _ => false end) d).

Definition is_resetConnection (m : method) : bool :=
  match m with m_resetConnection => true | _ => false end.

Definition is_getConnection (m : method) : bool :=
  match m with m_getConnection _ => true | _ => false end.

Definition is_ensureImagePulled (m : method) : bool :=
  match m with m_ensureImagePulled _ _ => true | _ => false end.

(** how many engine calls of kind [k] a trace has *)
Definition called (k : rpcKind) (d : list event) : nat :=
  length (filter (fun a => match fst a, k with
                           | kNew, kNew | kContainers, kContainers
                           | kGenerateSpec, kGenerateSpec
                           | kNewContainer, kNewContainer
                           | kNewTask, kNewTask | kTaskStart, kTaskStart
                           | kTask, kTask | kTaskDelete, kTaskDelete
                           | kContainerDelete, kContainerDelete
                           | kPull, kPull | kUnpack, kUnpack
                           | kNamespaceList, kNamespaceList
                           | kTaskGet, kTaskGet => true
                           | _, _ => false
                           end) (answers d)).

(** an engine call of kind [k] was answered with error [e] *)
Definition failed (k : rpcKind) (e : error) (d : list event) : Prop :=
  In (k, Some e) (answers d).

(** an engine call of kind [k] was answered without error *)
Definition succeeded (k : rpcKind) (d : list event) : Prop :=
  In (k, None) (answers d).

(** the processes, nil or not, of the responses that [TaskService.Get]
    answered in a trace *)
Fixpoint processes (d : list event) : list (option containerd.Process) :=
  match d with
  | [] => []
  | Call r a :: d' =>
      match r in rpc R return R -> list (option containerd.Process) with
      | TaskService_Get _ _ _ =>
          fun a => match a with
                   | inr resp => containerd.responseProcess resp :: processes d'
                   | inl _ => processes d'
                   end
      | _ => fun _ => processes d'
      end a
  | _ :: d' => processes d'
  end.


(** the connections asked for the list of namespaces in a trace *)
Fixpoint listRequests (d : list event) : list containerd.Client :=
  match d with
  | [] => []
  | Call r _ :: d' =>
      match r with
      | NamespaceService_List _ cl => cl :: listRequests d'
      | _ => listRequests d'
      end
  | _ :: d' => listRequests d'
  end.

(** the engine calls of a trace that are made on a container handle:
    which call, on which container *)
Fixpoint containerCalls (d : list event)
  : list (rpcKind * containerd.Container) :=
  match d with
  | [] => []
  | Call r _ :: d' =>
      match r with
      | Container_NewTask _ c0 => (kNewTask, c0) :: containerCalls d'
      | Container_Task _ c0 => (kTask, c0) :: containerCalls d'
      | Container_Delete _ c0 => (kContainerDelete, c0) :: containerCalls d'
      | _ => containerCalls d'
      end
  | _ :: d' => containerCalls d'
  end.

(** the namespaces that [NamespaceService.List] answered in a trace *)
Fixpoint listings (d : list event) : list (list containerd.Namespace) :=
  match d with
  | [] => []
  | Call r a :: d' =>
      match r in rpc R return R -> list (list containerd.Namespace) with
      | NamespaceService_List _ _ =>
          fun a => match a with
                   | inr resp => resp :: listings d'
                   | inl _ => listings d'
                   end
      | _ => fun _ => listings d'
      end a
  | _ :: d' => listings d'
  end.

(** the images, by name and digest, that [Pull] answered in a trace *)
Fixpoint pulled (d : list event) : list (string * string) :=
  match d with
  | [] => []
  | Call r a :: d' =>
      match r in rpc R return R -> list (string * string) with
      | Client_Pull _ _ _ =>
          fun a => match a with
                   | inr image => image :: pulled d'
                   | inl _ => pulled d'
                   end
      | _ => fun _ => pulled d'
      end a
  | _ :: d' => pulled d'
  end.

(** [l1] is [l2] with some elements left out, the others in the order
    they have in [l2] *)
Inductive subsequence {A : Type} : list A -> list A -> Prop :=
| subsequence_nil : subsequence [] []
| subsequence_keep : forall x l1 l2,
    subsequence l1 l2 -> subsequence (x :: l1) (x :: l2)
| subsequence_drop : forall x l1 l2,
    subsequence l1 l2 -> subsequence l1 (x :: l2).

(** the names of the namespaces the engine reports *)
Definition reportedNames (resp : list containerd.Namespace) : list string :=
  map containerd.nsName resp.

Definition notDefault (name : string) : bool := negb (name =? "default").

(** the cached connection is absent and [resetConnection] ran once *)
Definition invalidated {E : Type} (s : Sys E) (d : list event) : Prop :=
  client (c s) = None /\ entered is_resetConnection d = 1.

(** ** A scripted engine

    The engine of the examples: it numbers the calls it receives from 0
    and answers the calls listed in [faults] with the error given there;
    every other call succeeds, with fixed data. *)

Record Script : Type := mkScript {
  received : nat;
  faults : list (nat * error);
  namespaces : list containerd.Namespace;
  process : option containerd.Process
}.

Fixpoint lookup (n : nat) (l : list (nat * error)) : option error :=
  match l with
  | [] => None
  | (k, e) :: l' => if Nat.eqb k n then Some e else lookup n l'
  end.

Definition orElse {A : Type} (o : option error) (a : A) : result A :=
  match o with
  | Some e => inl e
  | None => inr a
  end.

Definition scripted {R : Type} (r : rpc R) (sc : Script) : R :=
  let fault := lookup (received sc) (faults sc) in
  match r in rpc R return R with
  | New _ _ => fault
  | Client_Containers _ _ => orElse fault ["c1"; "c2"]
  | GenerateSpec _ _ image =>
      orElse fault (containerd.mkSpec (containerd.Name image))
  | Client_NewContainer _ _ _ _ _ _ _ _ => fault
  | Container_NewTask _ _ => orElse fault 4242%Z
  | Task_Start _ _ => fault
  | Container_Task _ _ => orElse fault 4242%Z
  | Task_Delete _ _ => fault
  | Container_Delete _ _ => fault
  | Client_Pull _ _ ref => orElse fault (ref, "sha256:0a1b")
  | Image_Unpack _ _ _ => fault
  | NamespaceService_List _ _ => orElse fault (namespaces sc)
  | TaskService_Get _ _ _ =>
      orElse fault (containerd.mkGetResponse (process sc))
  end.

#[export] Instance Script_Engine : Engine Script :=
  fun R r sc =>
    (scripted r sc,
     mkScript (S (received sc)) (faults sc) (namespaces sc) (process sc)).

(** an engine error, and one that is a "not found" *)
Definition boom : error := engineError false "rpc error: unavailable".
Definition absent : error := engineError true "no running task found".

(** a script with the given faults *)
Definition script (faults : list (nat * error)) : Script :=
  mkScript 0 faults
    [containerd.mkNamespace "default" []; containerd.mkNamespace "staging" [];
     containerd.mkNamespace "prod" []]
    (Some (containerd.mkProcess containerd.RUNNING)).

(** a client instance on a scripted engine, as [NewContainerdClient]
    leaves it *)
Definition start (timeout : Z) (faults : list (nat * error)) : Sys Script :=
  mkSys (NewContainerdClient Background timeout "/run/containerd/containerd.sock")
    (script faults) 0 0.

(** the same, without timeout, on an engine whose task lookups answer
    [process] *)
Definition startAnswering (process : option containerd.Process) : Sys Script :=
  mkSys (NewContainerdClient Background 0 "/run/containerd/containerd.sock")
    (mkScript 0 [] [] process) 0 0.

(** a client instance without timeout, built with a context that has a
    deadline *)
Definition startUnderDeadline : Sys Script :=
  mkSys (NewContainerdClient (timerCtx 0 Background 30) 0
           "/run/containerd/containerd.sock")
    (script []) 1 0.

Definition labels (pod : model.Pod) (container : model.Container)
  : list (string * string) :=
  [("namespace", model.Namespace pod); ("pod", model.Name pod);
   ("container", model.ID container)].

(** values of [model.DefaultNamespace] and [plugin.RuntimePlugin] for the
    examples *)
Definition exampleNamespace : string := "eliot".
Definition examplePlugin : string := "io.containerd.runtime.v1".

Definition pod1 : model.Pod := model.mkPod "p1" "edge".
Definition container1 : model.Container := model.mkContainer "c1" "reg/app:1".
Definition handle1 : containerd.Container :=
  containerd.mkContainer "c1" (containerd.mkClient 0 "edge").

(** ** More readings of a trace *)

(** the address and namespace of every [containerd.New] of a trace *)
Fixpoint dials (d : list event) : list (string * string) :=
  match d with
  | [] => []
  | Call r _ :: d' =>
      match r with
      | New address namespace => (address, namespace) :: dials d'
      | _ => dials d'
      end
  | _ :: d' => dials d'
  end.

(** the namespace an operation connects to *)
Definition namespaceOf (DefaultNamespace : string) (op : operation) : string :=
  match op with
  | opGetContainers namespace => namespace
  | opCreateContainer pod _ => model.GetNamespace pod
  | _ => DefaultNamespace
  end.

(** no engine call follows one that failed *)
Fixpoint stopsAtFailure (l : list (rpcKind * option error)) : Prop :=
  match l with
  | [] => True
  | (_, Some _) :: l' => l' = []
  | (_, None) :: l' => stopsAtFailure l'
  end.

(** no engine call failed *)
Fixpoint allSucceeded (l : list (rpcKind * option error)) : Prop :=
  match l with
  | [] => True
  | (_, Some _) :: _ => False
  | (_, None) :: l' => allSucceeded l'
  end.

Definition contextId (ctx : Context) : option nat :=
  match ctx with
  | Background => None
  | timerCtx id _ _ | cancelCtx id _ => Some id
  end.

(** [live] being the contexts derived and not yet cancelled, innermost
    first: every context derived in [d] is new, every engine call that
    takes a context is made under the innermost live one, the cancel
    functions are invoked innermost first, and none is live in the end *)
Fixpoint scoped (live : list nat) (d : list event) : Prop :=
  match d with
  | [] => live = []
  | Derived ctx :: d' =>
      match contextId ctx with
      | Some id => ~ In id live /\ scoped (id :: live) d'
      | None => False
      end
  | Cancel id :: d' => hd_error live = Some id /\ scoped (tl live) d'
  | Call r _ :: d' =>
      match contextOf r with
      | Some ctx =>
          (exists id, contextId ctx = Some id /\ hd_error live = Some id) /\
          scoped live d'
      | None => scoped live d'
      end
  | _ :: d' => scoped live d'
  end.

(** what the engine was asked to create: id, labels, snapshotter, name of
    the snapshot view and image under it, runtime *)
Record creation : Type := mkCreation {
  createdID : string;
  createdLabels : list (string * string);
  createdSnapshotter : string;
  createdView : string * containerd.Image;
  createdRuntime : string;
  createdSpec : containerd.Spec;
  createdThrough : containerd.Client
}.

Fixpoint creations (d : list event) : list creation :=
  match d with
  | [] => []
  | Call r _ :: d' =>
      match r with
      | Client_NewContainer _ cl id labels spec snapshotter view runtime =>
          mkCreation id labels snapshotter view runtime spec cl :: creations d'
      | _ => creations d'
      end
  | _ :: d' => creations d'
  end.

(** the references the engine was asked to pull, with the connection *)
Fixpoint pullRequests (d : list event) : list (containerd.Client * string) :=
  match d with
  | [] => []
  | Call r _ :: d' =>
      match r with
      | Client_Pull _ cl ref => (cl, ref) :: pullRequests d'
      | _ => pullRequests d'
      end
  | _ :: d' => pullRequests d'
  end.

(** the images the engine was asked to unpack, with the snapshotter *)
Fixpoint unpackRequests (d : list event) : list (containerd.Image * string) :=
  match d with
  | [] => []
  | Call r _ :: d' =>
      match r with
      | Image_Unpack _ image snapshotter =>
          (image, snapshotter) :: unpackRequests d'
      | _ => unpackRequests d'
      end
  | _ :: d' => unpackRequests d'
  end.

(** the specs that [GenerateSpec] answered in a trace *)
Fixpoint specs (d : list event) : list containerd.Spec :=
  match d with
  | [] => []
  | Call r a :: d' =>
      match r in rpc R return R -> list containerd.Spec with
      | GenerateSpec _ _ _ =>
          fun a => match a with
                   | inr spec => spec :: specs d'
                   | inl _ => specs d'
                   end
      | _ => fun _ => specs d'
      end a
  | _ :: d' => specs d'
  end.

(** the container ids that [Containers] answered in a trace *)
Fixpoint containerListings (d : list event) : list (list string) :=
  match d with
  | [] => []
  | Call r a :: d' =>
      match r in rpc R return R -> list (list string) with
      | Client_Containers _ _ =>
          fun a => match a with
                   | inr ids => ids :: containerListings d'
                   | inl _ => containerListings d'
                   end
      | _ => fun _ => containerListings d'
      end a
  | _ :: d' => containerListings d'
  end.

(** the warnings logged in a trace *)
Fixpoint warnings (d : list event) : list string :=
  match d with
  | [] => []
  | Log WarnLevel msg :: d' => msg :: warnings d'
  | _ :: d' => warnings d'
  end.

(** the tasks the engine was asked to start or to delete *)
Fixpoint tasksTouched (d : list event) : list containerd.Task :=
  match d with
  | [] => []
  | Call r _ :: d' =>
      match r with
      | Task_Start _ t | Task_Delete _ t => t :: tasksTouched d'
      | _ => tasksTouched d'
      end
  | _ :: d' => tasksTouched d'
  end.

(** the process ids that [NewTask] and [Task] answered in a trace *)
Fixpoint pids (d : list event) : list Z :=
  match d with
  | [] => []
  | Call r a :: d' =>
      match r in rpc R return R -> list Z with
      | Container_NewTask _ _ | Container_Task _ _ =>
          fun a => match a with
                   | inr pid => pid :: pids d'
                   | inl _ => pids d'
                   end
      | _ => fun _ => pids d'
      end a
  | _ :: d' => pids d'
  end.

Definition isStop (op : operation) : bool :=
  match op with opStopContainer _ => true | _ => false end.

(** the operations that return every engine failure they meet *)
Definition surfacesAll (op : operation) : bool :=
  match op with
  | opGetContainers _ | opCreateContainer _ _ | opStartContainer _
  | opGetNamespaces => true
  | _ => false
  end.

(** ** The daemon's command (cmd/eliotd/main.go) *)

(** package strings, for a separator of one byte *)
Module strings.

(** [strings.Count(s, sep)] *)
Fixpoint Count (s : string) (sep : ascii) : nat :=
  match s with
  | EmptyString => 0
  | String ch rest =>
      if Ascii.eqb ch sep then S (Count rest sep) else Count rest sep
  end.

(** [strings.Split(s, sep)]: the substrings between the separators, one
    more than there are separators *)
Fixpoint Split (s : string) (sep : ascii) : list string :=
  match s with
  | EmptyString => [EmptyString]
  | String ch rest =>
      if Ascii.eqb ch sep then EmptyString :: Split rest sep
      else match Split rest sep with
           | part :: parts => String ch part :: parts
           | [] => [String ch EmptyString]
           end
  end.

End strings.

(** package strconv: [Atoi], which is [ParseInt(s, 10, 0)] under the name
    "Atoi" *)
Module strconv.

Inductive errorKind : Type := ErrSyntax | ErrRange.

(** [*strconv.NumError] *)
Record NumError : Type := mkNumError {
  Func : string;
  Num : string;
  Err : errorKind
}.

Definition digit (ch : ascii) : option Z :=
  let code := Z.of_nat (nat_of_ascii ch) in
  if ((48 <=? code) && (code <=? 57))%Z then Some (code - 48)%Z else None.

(** the loop of [ParseUint] in base 10: [n] is a [uint64], and
    [n*10 + d] wraps around only above [maxVal] *)
Fixpoint digits (maxVal : Z) (s : string) (n : Z) : errorKind + Z :=
  match s with
  | EmptyString => inr n
  | String ch rest =>
      match digit ch with
      | None => inl ErrSyntax
      | Some d =>
          if (n >=? (2 ^ 64 - 1) / 10 + 1)%Z then inl ErrRange
          else
            let n1 := (n * 10 + d)%Z in
            if (n1 >? maxVal)%Z then inl ErrRange
            else digits maxVal rest n1
      end
  end.

Section IntSize.

(** [strconv.IntSize]: the size in bits of an [int], 32 or 64 *)
Variable IntSize : Z.

(** [ParseUint(s, 10, 0)] *)
Definition ParseUint (s : string) : errorKind + Z :=
  match s with
  | EmptyString => inl ErrSyntax
  | _ => digits (2 ^ IntSize - 1) s 0
  end.

(** [ParseInt(s, 10, 0)] *)
Definition ParseInt (s : string) : errorKind + Z :=
  match s with
  | EmptyString => inl ErrSyntax
  | String ch rest =>
      let neg := Ascii.eqb ch "-"%char in
      let s' := if Ascii.eqb ch "+"%char || neg then rest else s in
      match ParseUint s' with
      | inl ErrSyntax => inl ErrSyntax
      | r =>
          let un := match r with
                    | inr un => un
                    | inl _ => (2 ^ IntSize - 1)%Z
                    end in
          let cutoff := (2 ^ (IntSize - 1))%Z in
          if negb neg && (un >=? cutoff)%Z then inl ErrRange
          else if neg && (un >? cutoff)%Z then inl ErrRange
          else inr (if neg then (- un)%Z else un)
      end
  end.

(** [strconv.Atoi(s)] *)
Definition Atoi (s : string) : NumError + Z :=
  match ParseInt s with
  | inl kind => inl (mkNumError "Atoi" s kind)
  | inr n => inr n
  end.

End IntSize.

End strconv.

Module main.

(** an operand of [log.Panicf] *)
Inductive operand : Type :=
| aText (s : string)
| aNumError (err : strconv.NumError).

(** what [log.Panicf(format, operands...)] panics with *)
Inductive panic : Type := Panicf (format : string) (a : list operand).

(** the flags that [Action] reads *)
Record Flags : Type := mkFlags {
  grpc_api : bool;                 (* --grpc-api *)
  lifecycle_controller : bool;     (* --lifecycle-controller *)
  discovery : bool;                (* --discovery *)
  grpc_api_listen : string         (* --grpc-api-listen *)
}.

Section Daemon.

Variable IntSize : Z.

(** the runtime client and the device info that [Action] obtains from
    packages [cmd] and [device] *)
Variables (RuntimeClient Device : Type).
Variable Hostname : Device -> string.

(** [parseGrpcPort]; [inl] is a panic *)
Definition parseGrpcPort (addr : string) : panic + Z :=
  let parts := strings.Split addr ":"%char in
  if negb (Nat.eqb (length parts) 2) then
    inl (Panicf "Invalid formated grpc address [%s]" [aText addr])
  else
    match strconv.Atoi IntSize (nth 1 parts EmptyString) with
    | inl err => inl (Panicf "Unable to parse grpc port: %s" [aNumError err])
    | inr port => inr port
    end.

(** the services given to the supervisor *)
Inductive service : Type :=
| api_NewServer (listen : string) (client : RuntimeClient) (device : Device)
| controller_NewLifecycle (client : RuntimeClient)
| discovery_NewServer (hostname : string) (port : Z).

Inductive step : Type :=
| Infoln (msg : string)
| Add (sv : service)               (* supervisor.Add *)
| Serve.                           (* supervisor.Serve *)

Inductive exit : Type :=
| returned (err : option string)
| panicked (p : panic).

(** [app.Action], from the flags, the device info and the runtime client
    on: what it logs and gives to the supervisor, in order, and how it
    ends.  [serviceCount] is carried along with the steps. *)
Definition Action (flags : Flags) (device : Device) (client : RuntimeClient)
  : list step * exit :=
  let grpcListen := grpc_api_listen flags in
  let '(steps, serviceCount) := ([], 0) in
  let '(steps, serviceCount) :=
    if grpc_api flags then
      ((steps ++ [Infoln "grpc-api enabled";
                  Add (api_NewServer grpcListen client device)])%list,
       S serviceCount)
    else (steps, serviceCount) in
  let '(steps, serviceCount) :=
    if lifecycle_controller flags then
      ((steps ++ [Infoln "lifecycle-controller enabled";
                  Add (controller_NewLifecycle client)])%list,
       S serviceCount)
    else (steps, serviceCount) in
  let discovered :=
    if grpc_api flags && discovery flags then
      let steps :=
        (steps ++ [Infoln "grpc discovery over zeroconf enabled"])%list in
      match parseGrpcPort grpcListen with
      | inl p => inl (steps, p)
      | inr port =>
          inr ((steps ++ [Add (discovery_NewServer (Hostname device) port)])%list,
               S serviceCount)
      end
    else inr (steps, serviceCount) in
  match discovered with
  | inl (steps, p) => (steps, panicked p)
  | inr (steps, serviceCount) =>
      if Nat.eqb serviceCount 0 then
        (steps,
         returned (Some "Nothing to run. You should enable one of [grpc-api, lifecycle-controller, discovery]"))
      else ((steps ++ [Serve])%list, returned None)
  end.

(** the services given to the supervisor in a run *)
Fixpoint added (steps : list step) : list service :=
  match steps with
  | [] => []
  | Add sv :: steps' => sv :: added steps'
  | _ :: steps' => added steps'
  end.

Definition serves (steps : list step) : bool :=
  existsb (fun st => match st with Serve => true | _ => false end) steps.

End Daemon.

Arguments api_NewServer {RuntimeClient Device}.
Arguments controller_NewLifecycle {RuntimeClient Device}.
Arguments discovery_NewServer {RuntimeClient Device}.
Arguments Infoln {RuntimeClient Device}.
Arguments Add {RuntimeClient Device}.
Arguments Serve {RuntimeClient Device}.
Arguments added {RuntimeClient Device}.
Arguments serves {RuntimeClient Device}.
Arguments Action IntSize {RuntimeClient Device}.

End main.

(** the error of [Action] when no service is enabled *)
Definition nothingToRun : string :=
  "Nothing to run. You should enable one of [grpc-api, lifecycle-controller, discovery]".

(** the flags as the command line leaves them by default *)
Definition defaultFlags : main.Flags :=
  main.mkFlags true true true "localhost:5000".

(** the decimal numeral of [n] *)
Definition decimal (n : nat) : string := NilZero.string_of_uint (Nat.to_uint n).

(** * Properties *)

Ltac answer_engine :=
  match goal with
  | |- context [respond ?r ?e] =>
      let a := fresh "a" in
      let e' := fresh "e" in
      destruct (respond r e) as [a e'] eqn:?; try destruct a; cbn;
      repeat match goal with
             | p : (string * string)%type |- _ => destruct p; cbn
             | resp : containerd.GetResponse |- _ =>
                 destruct resp as [[[?]|]]; cbn
             end
  end.

Ltac unfold_methods :=
  unfold run, GetContainers, CreateContainer, StartContainer, StopContainer,
    GetNamespaces, IsContainerRunning, GetContainerTaskStatus,
    ensureImagePulled, getConnection, getContext, resetConnection,
    containerd_New, Containers, NewContainer, NewTask, Task, Pull,
    WithTimeout, WithCancel, defer, invoke, Debugf, Debugln, Warnf, enter,
    emit, self, call, bind, ret;
  cbn.

(** every path of a method run from [s]: by the sign of the timeout and
    by the answers of the engine *)
Ltac run_paths s :=
  unfold_methods;
  let Ht := fresh "Htimeout" in
  destruct (timeout (c s) >? 0)%Z eqn:Ht; cbn;
  repeat first [ answer_engine | rewrite Ht; cbn ].

(** closes a goal that assumes a call answered otherwise than it did *)
Ltac absurd_answer :=
  match goal with
  | H : (_, _) = (_, _) \/ _ |- _ => destruct H as [H|H]; [inversion H; subst|]
  | H : (_, _) = (_, _) |- _ => inversion H; subst; clear H
  | H : Some (_, _) = Some (_, _) |- _ => inversion H; subst; clear H
  | H : False |- _ => destruct H
  | H : _ \/ _ |- _ => destruct H as [H|H]
  end.

Ltac read_trace := unfold failed, succeeded, invalidated in *; cbn in *.

(** ** What the error messages mention *)

Create HintDb mentions.

Lemma Mentions_NewTask (id : string) :
  Mentions (Sprintf "Error while creating task for container [%s]" [aString id]) id.
Proof. exists "Error while creating task for container [", "]". reflexivity. Qed.

Lemma Mentions_Start (id : string) :
  Mentions (Sprintf "Failed to start task in container" [aString id]) id.
Proof.
  exists "Failed to start task in container%!(EXTRA string=", ")". reflexivity.
Qed.

Lemma Mentions_Delete (id : string) :
  Mentions (Sprintf "Failed to delete container %s" [aString id]) id.
Proof.
  exists "Failed to delete container ", "". reflexivity.
Qed.

Lemma Mentions_Pull (ref : string) :
  Mentions (Sprintf "Error pulling image [%s]" [aString ref]) ref.
Proof. exists "Error pulling image [", "]". reflexivity. Qed.

Lemma Mentions_Unpack (digest : string) :
  Mentions (Sprintf "Error while unpacking image [%s]" [aString digest]) digest.
Proof. exists "Error while unpacking image [", "]". reflexivity. Qed.

Lemma Mentions_NewContainer (name : string) :
  Mentions (Sprintf "Failed to create new container from image %s" [aString name]) name.
Proof.
  exists "Failed to create new container from image ", "". reflexivity.
Qed.

#[export] Hint Resolve Mentions_NewTask Mentions_Start Mentions_Delete
  Mentions_Pull Mentions_Unpack Mentions_NewContainer : mentions.

(** the message of [StartContainer]'s second failure, as Go prints it *)
Example Start_message :
  Sprintf "Failed to start task in container" [aString "c1"]
  = "Failed to start task in container%!(EXTRA string=c1)".
Proof. reflexivity. Qed.

Ltac wrapped :=
  eexists; repeat split; try reflexivity; unfold Wrapf; eauto with mentions.

(** ** The namespace filter *)

Section NamespaceFilter.

Let step (result : list string) (namespace : containerd.Namespace) :=
  if negb (containerd.nsName namespace =? "default")
  then (result ++ [containerd.nsName namespace])%list
  else result.

Lemma fold_step_filter (resp : list containerd.Namespace) :
  forall acc,
    fold_left step resp acc
    = (acc ++ filter notDefault (reportedNames resp))%list.
Proof.
  induction resp as [|ns resp IH]; intros acc; cbn.
  - now rewrite app_nil_r.
  - rewrite IH. unfold step, notDefault.
    destruct (containerd.nsName ns =? "default"); cbn.
    + reflexivity.
    + now rewrite <- app_assoc.
Qed.

Lemma getNamespaces_filter (resp : list containerd.Namespace) :
  getNamespaces resp = filter notDefault (reportedNames resp).
Proof. unfold getNamespaces. apply (fold_step_filter resp []). Qed.

Lemma filter_subsequence {A : Type} (p : A -> bool) (l : list A) :
  subsequence (filter p l) l.
Proof.
  induction l as [|x l IH]; cbn.
  - constructor.
  - destruct (p x); now constructor.
Qed.

Lemma notDefault_true (name : string) :
  notDefault name = true <-> name <> "default".
Proof.
  unfold notDefault. destruct (String.eqb_spec name "default"); cbn.
  - split; [discriminate | contradiction].
  - split; [trivial | reflexivity].
Qed.

Lemma count_occ_filter (p : string -> bool) (l : list string) (name : string) :
  p name = true ->
  count_occ string_dec (filter p l) name = count_occ string_dec l name.
Proof.
  intros Hp. induction l as [|x l IH]; cbn; [reflexivity|].
  destruct (p x) eqn:Hx; cbn; destruct (string_dec x name); subst;
    try congruence.
Qed.

(** what [getNamespaces] keeps of the reported namespaces *)
Lemma getNamespaces_spec (resp : list containerd.Namespace) :
  let names := getNamespaces resp in
  ~ In "default" names /\
  (forall name, name <> "default" ->
                count_occ string_dec names name
                = count_occ string_dec (reportedNames resp) name) /\
  subsequence names (reportedNames resp) /\
  (NoDup (reportedNames resp) ->
   forall name, In name (reportedNames resp) -> name <> "default" ->
                count_occ string_dec names name = 1).
Proof.
  cbv zeta. rewrite getNamespaces_filter. repeat split.
  - intros H. apply filter_In in H. destruct H as [_ H].
    apply notDefault_true in H. now apply H.
  - intros name Hname. apply count_occ_filter. now apply notDefault_true.
  - apply filter_subsequence.
  - intros Hnd name Hin Hname.
    rewrite count_occ_filter by now apply notDefault_true.
    now apply NoDup_count_occ'.
Qed.

End NamespaceFilter.

Section Properties.

Context {E : Type} {engine_impl : Engine E}.
Variable DefaultNamespace : string.
Variable RuntimePlugin : string.
Variable getContainerLabels :
  model.Pod -> model.Container -> list (string * string).

Local Abbreviation CreateContainer :=
  (CreateContainer RuntimePlugin getContainerLabels).
Local Abbreviation GetNamespaces := (GetNamespaces DefaultNamespace).
Local Abbreviation GetContainerTaskStatus :=
  (GetContainerTaskStatus DefaultNamespace).
Local Abbreviation run :=
  (run DefaultNamespace RuntimePlugin getContainerLabels).
Local Abbreviation reachable :=
  (reachable DefaultNamespace RuntimePlugin getContainerLabels).


(** C5: [StopContainer] always attempts the deletion of the container
    it is given, once, after fetching the task of that container, also
    when fetching the task fails, and then without deleting a task; a
    failure of the deletion invalidates the cached connection and is
    returned wrapped in a message that mentions the container id; when
    the deletion succeeds no error is returned, whatever the task steps
    answered. *)
Theorem StopContainer_surfaces_only_the_deletion :
  forall (container : containerd.Container) (s : Sys E),
    let '(r, s', d) := StopContainer container s in
    containerCalls d = [(kTask, container); (kContainerDelete, container)] /\
    called kContainerDelete d = 1 /\
    (forall e, failed kTask e d ->
               called kTaskDelete d = 0 /\ called kContainerDelete d = 1) /\
    (forall e,
        failed kContainerDelete e d ->
        exists msg,
          r = Some (withMessage e msg) /\
          Mentions msg (containerd.ID container) /\
          invalidated s' d) /\
    (succeeded kContainerDelete d -> r = None).
Proof.
  intros container s. run_paths s;
    (split; [reflexivity | split; [reflexivity |
      split; [intros x H; split; [|reflexivity] |
        split; [intros x H | intros H]]]]); read_trace;
    repeat absurd_answer; try discriminate; try reflexivity; wrapped.
Qed.

(** C4: [IsContainerRunning] looks up the task of the container it is
    given, once, and makes no other call on a container; it returns
    [(false, nil)] when the lookup fails with a not-found error,
    [(true, nil)] when a task is found, and [(false, err)] with the
    lookup's error for any other failure. *)
Theorem IsContainerRunning_by_lookup :
  forall (container : containerd.Container) (s : Sys E),
    let '(r, s', d) := IsContainerRunning container s in
    containerCalls d = [(kTask, container)] /\
    called kTask d = 1 /\
    (forall e, failed kTask e d -> IsNotFound e = true -> r = (false, None)) /\
    (succeeded kTask d -> r = (true, None)) /\
    (forall e, failed kTask e d -> IsNotFound e = false -> r = (false, Some e)).
Proof.
  intros container s. run_paths s;
    try match goal with
        | |- context [IsNotFound ?e] => destruct (IsNotFound e) eqn:?; cbn
        end;
    (split; [reflexivity | split; [reflexivity |
      split; [intros x H Hnf | split; [intros H | intros x H Hnf]]]]);
    read_trace; repeat absurd_answer; try discriminate; try reflexivity;
    congruence.
Qed.


(** C6: once connected, [GetNamespaces] asks that connection, once,
    for the namespaces; it returns names only from what the engine
    reports, and when the engine reports its namespaces it returns
    their names without ["default"]: every other name as many times as
    it is reported (once, the reported names being distinct), in the
    order of the report. *)
Theorem GetNamespaces_drops_default :
  forall (s : Sys E),
    let '(r, s', d) := GetNamespaces s in
    (succeeded kNew d ->
     listRequests d = [containerd.mkClient (clients s) DefaultNamespace]) /\
    (forall names, r = inr names -> exists reported, listings d = [reported]) /\
    forall reported,
      In reported (listings d) ->
      exists names,
        r = inr names /\
        ~ In "default" names /\
        (forall name, name <> "default" ->
                      count_occ string_dec names name
                      = count_occ string_dec (reportedNames reported) name) /\
        subsequence names (reportedNames reported) /\
        (NoDup (reportedNames reported) ->
         forall name, In name (reportedNames reported) -> name <> "default" ->
                      count_occ string_dec names name = 1).
Proof.
  intros s. run_paths s;
    (split; [intros H; read_trace; repeat absurd_answer;
             try discriminate; reflexivity
            | split; [intros names H; try discriminate H;
                      eexists; reflexivity |]]);
    intros reported H; cbn in H;
    repeat absurd_answer; try contradiction; subst;
    (eexists; split; [reflexivity | apply getNamespaces_spec]).
Qed.

(** C2, as the code has it: [CreateContainer] enters
    [ensureImagePulled] once when its own connection is established and
    not at all when that fails; when the pull or the unpack fails it
    returns the failure, wrapped, and the engine is never asked to
    create a container. *)
Theorem CreateContainer_pulls_once_connected :
  forall (pod : model.Pod) (container : model.Container) (s : Sys E),
    let '(r, s', d) := CreateContainer pod container s in
    (hd_error (answers d) = Some (kNew, None) ->
     entered is_ensureImagePulled d = 1) /\
    (forall e, hd_error (answers d) = Some (kNew, Some e) ->
               entered is_ensureImagePulled d = 0 /\
               exists msg, r = inl (withMessage e msg)) /\
    (forall e, failed kPull e d \/ failed kUnpack e d ->
               (exists msg, r = inl (withMessage e msg)) /\
               called kNewContainer d = 0).
Proof.
  intros pod container s. run_paths s;
    (split; [intros H | split; [intros x H | intros x H]]); read_trace;
    repeat absurd_answer; try discriminate; try reflexivity;
    split; try reflexivity; eexists; reflexivity.
Qed.

(** C9, as the code has it: every exported method starts by deriving a
    new context from the wrapper's, with [WithTimeout] when the
    configured timeout is positive and with [WithCancel] otherwise, so
    that the context has a deadline exactly when the timeout is positive
    or the wrapper's context has one; and it ends, whatever it returns
    and also when it panics, by invoking that context's cancel function,
    which it invokes nowhere else. *)
Theorem operations_derive_and_cancel_a_context :
  forall (op : operation) (s : Sys E),
    let '(r, s', d) := run op s in
    hasDeadline (derivedContext s)
    = ((timeout (c s) >? 0)%Z || hasDeadline (context (c s))) /\
    contexts s < contexts s' /\
    exists body,
      d = (Enter (methodOf op) :: Enter m_getContext
             :: Derived (derivedContext s) :: body ++ [Cancel (contexts s)])%list /\
      ~ In (Cancel (contexts s)) body.
Proof.
  intros op s. unfold derivedContext.
  destruct op; run_paths s;
    repeat match goal with
           | |- context [IsNotFound ?e] => destruct (IsNotFound e); cbn
           end;
    (split; [reflexivity | split; [lia|]]);
    match goal with
    | |- exists body, ?d = _ /\ _ =>
        exists (removelast (skipn 3 d)); cbn; split; [reflexivity|]
    end;
    intros H; repeat absurd_answer; try discriminate;
    match goal with
    | H : Cancel _ = Cancel _ |- _ => injection H; lia
    end.
Qed.

(** X1: the failures that are wrapped.  A failed pull or unpack makes
    [ensureImagePulled], and a failed creation makes [CreateContainer],
    return the failure wrapped in a message that mentions the reference,
    the digest or the name of the image, after [resetConnection]; a
    failed listing makes [GetContainers] return it wrapped, after
    [resetConnection]. *)
Theorem wrapped_failures_invalidate :
  (forall (namespace ref : string) (s : Sys E),
      let '(r, s', d) := ensureImagePulled namespace ref s in
      (forall e, failed kPull e d ->
                 exists msg,
                   r = inl (withMessage e msg) /\ Mentions msg ref /\
                   invalidated s' d) /\
      (forall e, failed kUnpack e d ->
                 exists msg name digest,
                   r = inl (withMessage e msg) /\
                   In (name, digest) (pulled d) /\ Mentions msg digest /\
                   invalidated s' d)) /\
  (forall (pod : model.Pod) (container : model.Container) (s : Sys E),
      let '(r, s', d) := CreateContainer pod container s in
      forall e, failed kNewContainer e d ->
                exists msg name digest,
                  r = inl (withMessage e msg) /\
                  In (name, digest) (pulled d) /\ Mentions msg name /\
                  invalidated s' d) /\
  (forall (namespace : string) (s : Sys E),
      let '(r, s', d) := GetContainers namespace s in
      forall e, failed kContainers e d ->
                r = inl (withMessage e "Error while getting list of containers") /\
                invalidated s' d).
Proof.
  split; [|split].
  - intros namespace ref s. run_paths s;
      (split; intros x H); read_trace; repeat absurd_answer;
      try discriminate;
      first
        [ solve [wrapped]
        | eexists; do 2 eexists;
          (split; [reflexivity | split; [left; reflexivity |]]);
          split; [eauto with mentions | now split] ].
  - intros pod container s. run_paths s;
      intros x H; read_trace; repeat absurd_answer; try discriminate;
      solve [ eexists; do 2 eexists;
              (split; [reflexivity | split; [left; reflexivity |]]);
              split; [eauto with mentions | now split] ].
  - intros namespace s. run_paths s;
      intros x H; read_trace; repeat absurd_answer; try discriminate;
      now repeat split.
Qed.

(** X2: the failures that are not wrapped.  A failed generation of the
    spec makes [CreateContainer], and a failed listing of the namespaces
    makes [GetNamespaces], return the engine's error as it is, and
    [resetConnection] is not called. *)
Theorem bare_failures_do_not_invalidate :
  (forall (pod : model.Pod) (container : model.Container) (s : Sys E),
      let '(r, s', d) := CreateContainer pod container s in
      forall e, failed kGenerateSpec e d ->
                r = inl e /\ entered is_resetConnection d = 0 /\
                client (c s') = client (c s)) /\
  (forall s : Sys E,
      let '(r, s', d) := GetNamespaces s in
      forall e, failed kNamespaceList e d ->
                r = inl e /\ entered is_resetConnection d = 0 /\
                client (c s') = client (c s)).
Proof.
  split.
  - intros pod container s. run_paths s;
      intros x H; read_trace; repeat absurd_answer; try discriminate;
      now repeat split.
  - intros s. run_paths s;
      intros x H; read_trace; repeat absurd_answer; try discriminate;
      now repeat split.
Qed.

(** *** Which connections an operation goes through *)

Ltac each_used :=
  let n := fresh "n" in
  let Hn := fresh "Hn" in
  intros n Hn; cbn in Hn;
  repeat (destruct Hn as [Hn|Hn]; [subst n; cbn|]); try contradiction.

Lemma connecting_operation_dials (op : operation) (s : Sys E) :
  connects op = true ->
  (exists o, hd_error (answers (trace (run op s))) = Some (kNew, o)) /\
  forall n, In n (connectionsUsed (trace (run op s))) ->
            clients s <= n < clients (final (run op s)).
Proof.
  intros H. destruct op; try discriminate; unfold trace, final;
    run_paths s; (split; [eexists; reflexivity | each_used; lia]).
Qed.

Lemma handle_operation_dials_nothing (op : operation) (s : Sys E) :
  connects op = false ->
  called kNew (trace (run op s)) = 0 /\
  entered is_getConnection (trace (run op s)) = 0 /\
  clients (final (run op s)) = clients s /\
  forall n, In n (connectionsUsed (trace (run op s))) ->
            option_map
              (fun h => containerd.id (containerd.containerClient h))
              (handleOf op) = Some n.
Proof.
  intros H. destruct op; try discriminate; unfold trace, final;
    run_paths s;
    repeat match goal with
           | |- context [IsNotFound ?e] => destruct (IsNotFound e); cbn
           end;
    (split; [reflexivity | split; [reflexivity | split; [reflexivity|]]]);
    each_used; reflexivity.
Qed.

Lemma used_connections_below (op : operation) (s : Sys E) :
  established s op ->
  forall n, In n (connectionsUsed (trace (run op s))) ->
            n < clients (final (run op s)).
Proof.
  intros He n Hn. destruct (connects op) eqn:Hc.
  - now apply (connecting_operation_dials op s Hc).
  - destruct (handle_operation_dials_nothing op s Hc) as (_ & _ & Hs & Hu).
    rewrite Hs. specialize (Hu n Hn). unfold established in He.
    destruct (handleOf op); cbn in Hu; [|discriminate].
    injection Hu as <-. exact He.
Qed.

(** C7, as the code has it: after an operation that returned an error,
    a next operation that connects begins by dialing, and every engine
    call it makes goes through a connection established in it, none
    that the failed operation went through; a next operation on a
    container handle dials nothing and goes through the connection of
    the handle only. *)
Theorem next_operation_after_a_failure :
  forall (s : Sys E) (op1 op2 : operation),
    established s op1 ->
    value (run op1 s) <> None ->
    let s1 := final (run op1 s) in
    (connects op2 = true ->
     (exists o, hd_error (answers (trace (run op2 s1))) = Some (kNew, o)) /\
     forall n, In n (connectionsUsed (trace (run op2 s1))) ->
               clients s1 <= n /\
               ~ In n (connectionsUsed (trace (run op1 s)))) /\
    (connects op2 = false ->
     called kNew (trace (run op2 s1)) = 0 /\
     forall n, In n (connectionsUsed (trace (run op2 s1))) ->
               option_map
                 (fun h => containerd.id (containerd.containerClient h))
                 (handleOf op2) = Some n).
Proof.
  intros s op1 op2 He _ s1. split; intros Hc.
  - destruct (connecting_operation_dials op2 s1 Hc) as [Hd Hu].
    split; [exact Hd|]. intros n Hn. split; [now apply Hu|].
    intros Hn1. apply (used_connections_below op1 s He) in Hn1.
    specialize (Hu n Hn). subst s1. lia.
  - destruct (handle_operation_dials_nothing op2 s1 Hc) as (Hk & _ & _ & Hu).
    now split.
Qed.

(** *** The cached connection field *)

Lemma run_keeps_client_absent (op : operation) (s : Sys E) :
  client (c s) = None -> client (c (final (run op s))) = None.
Proof.
  intros H. destruct op; unfold final; run_paths s;
    repeat match goal with
           | |- context [IsNotFound ?e] => destruct (IsNotFound e); cbn
           end;
    first [reflexivity | exact H].
Qed.

Lemma reachable_client_absent (s : Sys E) :
  reachable s -> client (c s) = None.
Proof.
  induction 1 as [context timeout address e n k | s op _ IH].
  - reflexivity.
  - now apply run_keeps_client_absent.
Qed.

Lemma getConnection_ignores_client
    (namespace : string) (x : option containerd.Client) (s : Sys E) :
  getConnection namespace (withClient x s)
  = (value (getConnection namespace s),
     withClient x (final (getConnection namespace s)),
     trace (getConnection namespace s)).
Proof.
  unfold value, final, trace, withClient. unfold_methods.
  repeat answer_engine; reflexivity.
Qed.

Lemma getConnection_dials (namespace : string) (s : Sys E) :
  called kNew (trace (getConnection namespace s)) = 1 /\
  forall cl, value (getConnection namespace s) = inr cl ->
             cl = containerd.mkClient (clients s) namespace /\
             clients (final (getConnection namespace s)) = S (clients s).
Proof.
  unfold value, final, trace. unfold_methods.
  repeat answer_engine; (split; [reflexivity|]); intros cl H;
    try discriminate; injection H as <-; now split.
Qed.

Lemma run_ignores_client
    (op : operation) (x : option containerd.Client) (s : Sys E) :
  value (run op (withClient x s)) = value (run op s) /\
  trace (run op (withClient x s)) = trace (run op s).
Proof.
  unfold value, trace, withClient. destruct op; run_paths s;
    repeat match goal with
           | |- context [IsNotFound ?e] => destruct (IsNotFound e); cbn
           end;
    split; reflexivity.
Qed.

Lemma run_dials_per_getConnection (op : operation) (s : Sys E) :
  entered is_getConnection (trace (run op s)) = called kNew (trace (run op s)).
Proof.
  unfold trace. destruct op; run_paths s;
    repeat match goal with
           | |- context [IsNotFound ?e] => destruct (IsNotFound e); cbn
           end;
    reflexivity.
Qed.

(** C10, as the code has it: the cached connection field is nil in
    every reachable state; [getConnection] dials a new connection on
    every call and neither reads nor writes the field; no operation
    reads it; [resetConnection] only sets it to nil; so an operation
    that connects goes through connections it established itself, also
    after a success, and an operation on a container handle never
    connects. *)
Theorem cached_connection_is_never_set :
  (forall s : Sys E, reachable s -> client (c s) = None) /\
  (forall namespace x (s : Sys E),
      getConnection namespace (withClient x s)
      = (value (getConnection namespace s),
         withClient x (final (getConnection namespace s)),
         trace (getConnection namespace s)) /\
      called kNew (trace (getConnection namespace s)) = 1 /\
      forall cl, value (getConnection namespace s) = inr cl ->
                 cl = containerd.mkClient (clients s) namespace /\
                 clients (final (getConnection namespace s)) = S (clients s)) /\
  (forall s : Sys E,
      resetConnection s = (tt, withClient None s, [Enter m_resetConnection])) /\
  (forall op (s : Sys E),
      entered is_getConnection (trace (run op s))
      = called kNew (trace (run op s)) /\
      (forall x, value (run op (withClient x s)) = value (run op s) /\
                 trace (run op (withClient x s)) = trace (run op s)) /\
      (connects op = true ->
       forall n, In n (connectionsUsed (trace (run op s))) ->
                 clients s <= n < clients (final (run op s))) /\
      (connects op = false ->
       entered is_getConnection (trace (run op s)) = 0)).
Proof.
  split; [exact reachable_client_absent|].
  split; [intros namespace x s; split;
          [apply getConnection_ignores_client | apply getConnection_dials]|].
  split; [reflexivity|].
  intros op s. split; [apply run_dials_per_getConnection|].
  split; [intros x; apply run_ignores_client|]. split; intros Hc.
  - now apply connecting_operation_dials.
  - now apply handle_operation_dials_nothing.
Qed.

(** *** More on the operations *)

Lemma append_assoc (a b c0 : string) : ((a ++ b) ++ c0 = a ++ b ++ c0)%string.
Proof. induction a as [|ch a IH]; cbn; [reflexivity | now rewrite IH]. Qed.

Lemma append_nil_r (a : string) : (a ++ "" = a)%string.
Proof. induction a as [|ch a IH]; cbn; [reflexivity | now rewrite IH]. Qed.

Lemma Error_withMessage (e : error) (msg : string) :
  Error (withMessage e msg) = ((msg ++ ": ") ++ Error e)%string.
Proof. cbn. now rewrite append_assoc. Qed.

Ltac split_not_found :=
  repeat match goal with
         | |- context [IsNotFound ?e] => destruct (IsNotFound e) eqn:?; cbn
         end.

(** X3: when a connection cannot be established, the operation makes no
    further engine call, does not call [resetConnection], leaves the
    wrapper as it was, and returns the failure wrapped as "Unable to
    create connection to containerd" ([GetContainerTaskStatus] returns no
    error). *)
Theorem connection_failure_ends_the_operation :
  forall (op : operation) (s : Sys E),
    let '(r, s', d) := run op s in
    forall e,
      failed kNew e d ->
      last (answers d) (kNew, None) = (kNew, Some e) /\
      entered is_resetConnection d = 0 /\
      c s' = c s /\
      r = match op with
          | opGetContainerTaskStatus _ => None
          | _ => Some (withMessage e "Unable to create connection to containerd")
          end.
Proof.
  intros op s. destruct op; run_paths s; split_not_found;
    intros x H; read_trace; repeat absurd_answer; try discriminate;
    now repeat split.
Qed.

(** X4: no operation but [StopContainer] makes an engine call after one
    that failed, and [GetContainers], [CreateContainer], [StartContainer]
    and [GetNamespaces] return no error exactly when every engine call
    they made succeeded. *)
Theorem operations_stop_at_the_first_failure :
  forall (op : operation) (s : Sys E),
    let '(r, s', d) := run op s in
    (isStop op = false -> stopsAtFailure (answers d)) /\
    (surfacesAll op = true -> (r = None <-> allSucceeded (answers d))).
Proof.
  intros op s. destruct op; run_paths s; split_not_found;
    (split; [intros H; try discriminate H; cbn; auto
            | intros H; try discriminate H; cbn; split; intros H';
              try discriminate H'; try contradiction; auto]).
Qed.

(** X5: an error that an operation returns stems from an engine call of
    that operation: it has the root cause of that call's error, is a "not
    found" exactly when that error is, and its text ends with that
    error's text. *)
Theorem returned_errors_stem_from_the_engine :
  forall (op : operation) (s : Sys E) (err : error),
    value (run op s) = Some err ->
    exists k e prefix,
      failed k e (trace (run op s)) /\
      Cause err = Cause e /\
      IsNotFound err = IsNotFound e /\
      Error err = (prefix ++ Error e)%string.
Proof.
  intros op s. unfold value, trace, failed.
  destruct op; run_paths s; split_not_found; intros err H; cbn in H;
    try discriminate H; injection H as <-;
    do 2 eexists;
    first [ exists ""; split; [cbn; eauto 10 | now repeat split]
          | eexists; split;
            [cbn; eauto 10
            | split; [reflexivity | split; [reflexivity|]];
              apply Error_withMessage ] ].
Qed.

(** X6: in every operation, every context derived is a new one, every
    engine call that takes a context is made under the innermost context
    that is derived and not yet cancelled, contexts are cancelled
    innermost first, and none is left uncancelled. *)
Theorem engine_calls_are_made_under_live_contexts :
  forall (op : operation) (s : Sys E), scoped [] (trace (run op s)).
Proof.
  intros op s. unfold trace. destruct op; run_paths s; split_not_found;
    repeat match goal with
           | |- _ /\ _ => split
           | |- ~ _ => let H := fresh in intros H; cbn in H; intuition lia
           | |- exists _, _ => eexists; split; reflexivity
           | |- _ = _ => reflexivity
           end.
Qed.

(** X7: when [CreateContainer] returns a container, it has dialed twice
    at the configured address in the pod's namespace, pulled the
    container's image reference through the second connection, unpacked
    the pulled image onto overlayfs, generated a spec and asked the first
    connection, once, for a container with the descriptor's id, the
    labels of pod and container, the overlayfs snapshotter, a snapshot
    view named after the id over the pulled image, and the runtime
    [RuntimePlugin.linux]; the handle returned has that id and that
    connection, and [resetConnection] was not called. *)
Theorem CreateContainer_success :
  forall (pod : model.Pod) (container : model.Container) (s : Sys E)
         (created : containerd.Container),
    value (CreateContainer pod container s) = inr created ->
    let d := trace (CreateContainer pod container s) in
    let namespace := model.GetNamespace pod in
    let first := containerd.mkClient (clients s) namespace in
    let second := containerd.mkClient (S (clients s)) namespace in
    created = containerd.mkContainer (model.ID container) first /\
    answers d = [(kNew, None); (kNew, None); (kPull, None); (kUnpack, None);
                 (kGenerateSpec, None); (kNewContainer, None)] /\
    dials d = [(address (c s), namespace); (address (c s), namespace)] /\
    pullRequests d = [(second, model.Image container)] /\
    (exists name digest spec,
        pulled d = [(name, digest)] /\
        specs d = [spec] /\
        unpackRequests d
        = [(containerd.mkImage name digest second, "overlayfs")] /\
        creations d
        = [mkCreation (model.ID container)
             (getContainerLabels pod container) "overlayfs"
             (model.ID container, containerd.mkImage name digest second)
             (RuntimePlugin ++ ".linux") spec first]) /\
    clients (final (CreateContainer pod container s)) = 2 + clients s /\
    entered is_resetConnection d = 0.
Proof.
  intros pod container s created. unfold value, trace, final.
  run_paths s; intros H; cbn in H; try discriminate H; injection H as <-;
    (repeat split; try reflexivity); do 3 eexists; now repeat split.
Qed.

(** X8: when the engine lists the containers of a namespace,
    [GetContainers] returns one handle per id listed, in the order of the
    listing, each on the connection that this call established in that
    namespace; an empty listing gives no handle and no error. *)
Theorem GetContainers_success :
  forall (namespace : string) (s : Sys E) (ids : list string),
    In ids (containerListings (trace (GetContainers namespace s))) ->
    value (GetContainers namespace s)
    = inr (map (fun i => containerd.mkContainer i
                           (containerd.mkClient (clients s) namespace)) ids) /\
    dials (trace (GetContainers namespace s)) = [(address (c s), namespace)] /\
    entered is_resetConnection (trace (GetContainers namespace s)) = 0.
Proof.
  intros namespace s ids. unfold value, trace.
  run_paths s; intros H; cbn in H; repeat absurd_answer; try contradiction;
    subst; now repeat split.
Qed.

(** X9: every operation dials at the address the wrapper was built with,
    in the namespace of its subject (the given namespace, the pod's, or
    the default one), and no operation changes the wrapper's context,
    timeout or address. *)
Theorem operations_dial_the_configured_address :
  forall (op : operation) (s : Sys E),
    let '(r, s', d) := run op s in
    (forall a, In a (dials d) ->
               a = (address (c s), namespaceOf DefaultNamespace op)) /\
    context (c s') = context (c s) /\
    timeout (c s') = timeout (c s) /\
    address (c s') = address (c s).
Proof.
  intros op s. destruct op; run_paths s; split_not_found;
    (split; [intros a H; cbn in H; repeat absurd_answer;
             try contradiction; subst; reflexivity
            | now repeat split]).
Qed.

Lemma Status_String_cases (st : containerd.Status) :
  ((0 <= st <= 5)%Z /\
   In (containerd.Status_String st)
     ["UNKNOWN"; "CREATED"; "RUNNING"; "STOPPED"; "PAUSED"; "PAUSING"]) \/
  (~ (0 <= st <= 5)%Z /\ containerd.Status_String st = itoa st).
Proof.
  destruct st as [|[[[]|[]|]|[[]|[]|]|]|];
    first [ left; split; [lia | cbn; tauto]
          | right; split; [lia | reflexivity] ].
Qed.

(** X10: when [GetContainerTaskStatus] returns, its answer is one of the
    six status names, or the decimal number of a status outside 0..5
    that the lookup found: ["UNKNOWN"] stands both for a failure and for
    a task whose status is unknown.  It logs one warning when the
    connection or the lookup fails and none otherwise, never calls
    [resetConnection] and leaves the wrapper as it was. *)
Theorem GetContainerTaskStatus_names_and_warnings :
  forall (containerID : string) (s : Sys E),
    let '(r, s', d) := GetContainerTaskStatus containerID s in
    (forall name,
        r = Returned name ->
        In name ["UNKNOWN"; "CREATED"; "RUNNING"; "STOPPED"; "PAUSED"; "PAUSING"] \/
        exists p,
          In (Some p) (processes d) /\
          ~ (0 <= containerd.processStatus p <= 5)%Z /\
          name = itoa (containerd.processStatus p)) /\
    (allSucceeded (answers d) -> warnings d = []) /\
    (forall e, failed kNew e d ->
               warnings d
               = [("Unable to get connection for resolving task status for containerID "
                     ++ containerID)%string]) /\
    (forall e, failed kTaskGet e d ->
               warnings d
               = [("Unable to resolve Container task status: " ++ Error e)%string]) /\
    entered is_resetConnection d = 0 /\
    c s' = c s.
Proof.
  intros containerID s. run_paths s;
    (split; [intros name H; try discriminate H; injection H as <-;
             first [ left; cbn; tauto
                   | match goal with
                     | |- context [containerd.Status_String ?st] =>
                         destruct (Status_String_cases st) as [[_ Hin]|[Hout Heq]];
                         [left; exact Hin
                         | right; eexists; split; [left; reflexivity|];
                           split; [exact Hout | exact Heq]]
                     end ] |]);
    (split; [intros H; cbn in H; try contradiction; reflexivity |]);
    (split; [intros x H; read_trace; repeat absurd_answer;
             try discriminate; now rewrite ?append_nil_r |]);
    (split; [intros x H; read_trace; repeat absurd_answer;
             try discriminate; now rewrite ?append_nil_r |]);
    now split.
Qed.

(** X11: [StopContainer] asks for the task of the container it is given
    first; when there is one, it asks for the deletion of that very
    task, then for the deletion of the given container; when the fetch
    fails it asks for the deletion of the given container only. *)
Theorem StopContainer_deletes_the_task_first :
  forall (container : containerd.Container) (s : Sys E),
    let '(r, s', d) := StopContainer container s in
    (succeeded kTask d ->
     map fst (answers d) = [kTask; kTaskDelete; kContainerDelete] /\
     containerCalls d = [(kTask, container); (kContainerDelete, container)] /\
     exists pid,
       pids d = [pid] /\
       tasksTouched d
       = [containerd.mkTask (containerd.ID container) pid
            (containerd.containerClient container)]) /\
    (forall e, failed kTask e d ->
               map fst (answers d) = [kTask; kContainerDelete] /\
               containerCalls d
               = [(kTask, container); (kContainerDelete, container)] /\
               tasksTouched d = []).
Proof.
  intros container s. run_paths s;
    (split; [intros H | intros x H]); read_trace; repeat absurd_answer;
    try discriminate; (split; [reflexivity | split; [reflexivity|]]);
    first [reflexivity | eexists; split; reflexivity].
Qed.


End Properties.

(** ** The daemon's command *)

Section SplitProperties.

Variable sep : ascii.

Lemma Split_nonempty (s : string) : strings.Split s sep <> [].
Proof.
  destruct s as [|ch s]; cbn; [discriminate|].
  destruct (Ascii.eqb ch sep); [discriminate|].
  destruct (strings.Split s sep); discriminate.
Qed.

Lemma Split_length (s : string) :
  length (strings.Split s sep) = S (strings.Count s sep).
Proof.
  induction s as [|ch s IH]; cbn; [reflexivity|].
  destruct (Ascii.eqb ch sep); cbn; [now rewrite IH|].
  destruct (strings.Split s sep); cbn in *; [discriminate | exact IH].
Qed.

Lemma Split_without_separator (s : string) :
  strings.Count s sep = 0 -> strings.Split s sep = [s].
Proof.
  induction s as [|ch s IH]; cbn; [reflexivity|].
  destruct (Ascii.eqb ch sep); [discriminate|].
  intros H. now rewrite (IH H).
Qed.

Lemma Split_at_first_separator (a b : string) :
  strings.Count a sep = 0 ->
  strings.Split (a ++ String sep b) sep = a :: strings.Split b sep.
Proof.
  induction a as [|ch a IH]; cbn.
  - intros _. now rewrite Ascii.eqb_refl.
  - destruct (Ascii.eqb ch sep); [discriminate|].
    intros H. now rewrite (IH H).
Qed.

Lemma Count_app (a b : string) :
  strings.Count (a ++ b) sep = strings.Count a sep + strings.Count b sep.
Proof.
  induction a as [|ch a IH]; cbn; [reflexivity|].
  destruct (Ascii.eqb ch sep); cbn; now rewrite IH.
Qed.

Lemma Count_one (s : string) :
  strings.Count s sep = 1 ->
  exists a b, s = (a ++ String sep b)%string /\
              strings.Count a sep = 0 /\ strings.Count b sep = 0.
Proof.
  induction s as [|ch s IH]; cbn; [discriminate|].
  destruct (Ascii.eqb_spec ch sep) as [->|Hne].
  - intros H. exists EmptyString, s. repeat split. now injection H.
  - intros H. destruct (IH H) as (a & b & -> & Ha & Hb).
    exists (String ch a), b. repeat split; [|exact Hb].
    cbn. destruct (Ascii.eqb_spec ch sep); [contradiction | exact Ha].
Qed.

End SplitProperties.

Section DecimalProperties.

Lemma to_uint_not_Nil (n : nat) : Nat.to_uint n <> Decimal.Nil.
Proof.
  intros H. pose proof (DecimalNat.Unsigned.of_to n) as Hn.
  rewrite H in Hn. cbn in Hn. subst n. discriminate H.
Qed.

Lemma decimal_digits (n : nat) : decimal n = NilEmpty.string_of_uint (Nat.to_uint n).
Proof.
  unfold decimal. pose proof (to_uint_not_Nil n) as H.
  destruct (Nat.to_uint n); [contradiction | reflexivity ..].
Qed.

Lemma digit_of_decimal (d : Decimal.uint) :
  match NilEmpty.string_of_uint d with
  | EmptyString => d = Decimal.Nil
  | String ch _ =>
      exists k, strconv.digit ch = Some k /\
                Ascii.eqb ch "+" = false /\ Ascii.eqb ch "-" = false
  end.
Proof.
  destruct d; cbn; [reflexivity | ..]; eexists; (split; [reflexivity|]);
    split; reflexivity.
Qed.

Lemma Count_decimal (d : Decimal.uint) :
  strings.Count (NilEmpty.string_of_uint d) ":" = 0.
Proof. induction d; cbn; trivial. Qed.

Lemma of_uint_acc_ge (d : Decimal.uint) :
  forall acc, acc <= Nat.of_uint_acc d acc.
Proof.
  induction d; intros acc; cbn [Nat.of_uint_acc]; [lia | ..];
    rewrite Nat.tail_mul_spec;
    match goal with
    | |- _ <= Nat.of_uint_acc _ ?a => specialize (IHd a); lia
    end.
Qed.

Ltac range_test maxVal :=
  match goal with
  | |- context [(?v <=? maxVal)%Z] => destruct (Z.leb_spec v maxVal)
  end.

(** the loop of [ParseUint] on a numeral: its value, or a range error
    when that is above [maxVal] *)
Lemma digits_decimal (maxVal : Z) (d : Decimal.uint) :
  (0 <= maxVal < 2 ^ 64)%Z ->
  forall acc,
    (Z.of_nat acc <= maxVal)%Z ->
    strconv.digits maxVal (NilEmpty.string_of_uint d) (Z.of_nat acc)
    = if (Z.of_nat (Nat.of_uint_acc d acc) <=? maxVal)%Z
      then inr (Z.of_nat (Nat.of_uint_acc d acc))
      else inl strconv.ErrRange.
Proof.
  intros Hmax. change (2 ^ 64)%Z with 18446744073709551616%Z in Hmax.
  induction d; intros acc Hacc;
    [ cbn; range_test maxVal; [reflexivity | lia] | .. ];
    cbn [NilEmpty.string_of_uint strconv.digits Nat.of_uint_acc];
    change ((2 ^ 64 - 1) / 10 + 1)%Z with 1844674407370955162%Z;
    rewrite Nat.tail_mul_spec;
    match goal with
    | |- context [Nat.of_uint_acc ?d' ?a] =>
        pose proof (of_uint_acc_ge d' a) as Hge; specialize (IHd a)
    end;
    match goal with
    | |- context [strconv.digit ?ch] =>
        let k := eval cbv in (strconv.digit ch) in
        change (strconv.digit ch) with k
    end;
    cbv iota beta;
    (destruct (Z.geb_spec (Z.of_nat acc) 1844674407370955162) as [Hc|Hc];
     [ range_test maxVal; [lia | reflexivity]
     | cbv zeta;
       match goal with
       | |- context [(?n1 >? maxVal)%Z] =>
           destruct (Z.gtb_spec n1 maxVal) as [Hn|Hn]
       end;
       [ range_test maxVal; [lia | reflexivity]
       | rewrite <- IHd by lia; f_equal; lia ] ]).
Qed.

Variable IntSize : Z.
Hypothesis IntSize_bounds : (2 <= IntSize <= 64)%Z.

Lemma IntSize_powers :
  (2 <= 2 ^ (IntSize - 1) /\ 2 ^ IntSize = 2 * 2 ^ (IntSize - 1) /\
   2 ^ IntSize <= 2 ^ 64)%Z.
Proof.
  split; [change 2%Z with (2 ^ 1)%Z at 1; apply Z.pow_le_mono_r; lia|]. split.
  - rewrite <- Z.pow_succ_r by lia. f_equal. lia.
  - apply Z.pow_le_mono_r; lia.
Qed.

Lemma ParseUint_decimal (n : nat) :
  strconv.ParseUint IntSize (decimal n)
  = if (Z.of_nat n <=? 2 ^ IntSize - 1)%Z then inr (Z.of_nat n)
    else inl strconv.ErrRange.
Proof.
  destruct IntSize_powers as (Hpos & Hdouble & Hle).
  rewrite decimal_digits.
  pose proof (digit_of_decimal (Nat.to_uint n)) as Hd.
  pose proof (digits_decimal (2 ^ IntSize - 1) (Nat.to_uint n)) as Hl.
  destruct (NilEmpty.string_of_uint (Nat.to_uint n)) as [|ch rest] eqn:Hs.
  - now apply to_uint_not_Nil in Hd.
  - unfold strconv.ParseUint. change 0%Z with (Z.of_nat 0).
    rewrite Hl by (cbn; lia).
    change (Nat.of_uint_acc (Nat.to_uint n) 0) with (Nat.of_uint (Nat.to_uint n)).
    now rewrite DecimalNat.Unsigned.of_to.
Qed.

(** [Atoi] on a numeral, bare or signed *)
Lemma Atoi_decimal (n : nat) :
  strconv.Atoi IntSize (decimal n)
  = (if (Z.of_nat n <? 2 ^ (IntSize - 1))%Z then inr (Z.of_nat n)
     else inl (strconv.mkNumError "Atoi" (decimal n) strconv.ErrRange)) /\
  strconv.Atoi IntSize ("+" ++ decimal n)
  = (if (Z.of_nat n <? 2 ^ (IntSize - 1))%Z then inr (Z.of_nat n)
     else inl (strconv.mkNumError "Atoi" ("+" ++ decimal n) strconv.ErrRange)) /\
  strconv.Atoi IntSize ("-" ++ decimal n)
  = (if (Z.of_nat n <=? 2 ^ (IntSize - 1))%Z then inr (- Z.of_nat n)%Z
     else inl (strconv.mkNumError "Atoi" ("-" ++ decimal n) strconv.ErrRange)).
Proof.
  destruct IntSize_powers as (Hpos & Hdouble & Hle).
  pose proof (ParseUint_decimal n) as Hu.
  pose proof (digit_of_decimal (Nat.to_uint n)) as Hd.
  rewrite <- decimal_digits in Hd.
  unfold strconv.Atoi, strconv.ParseInt. cbn [append].
  change (Ascii.eqb "+" "+") with true. change (Ascii.eqb "+" "-") with false.
  change (Ascii.eqb "-" "-") with true. change (Ascii.eqb "-" "+") with false.
  cbn [orb negb andb].
  destruct (decimal n) as [|ch rest] eqn:Hs.
  - rewrite decimal_digits in Hs. now apply to_uint_not_Nil in Hd.
  - destruct Hd as (k & Hk & Hplus & Hminus).
    rewrite Hplus, Hminus. cbn [orb negb andb]. rewrite Hu.
    destruct (Z.leb_spec (Z.of_nat n) (2 ^ IntSize - 1));
      destruct (Z.ltb_spec (Z.of_nat n) (2 ^ (IntSize - 1)));
      destruct (Z.leb_spec (Z.of_nat n) (2 ^ (IntSize - 1)));
      try lia;
      repeat match goal with
             | |- context [(?a >=? ?b)%Z] => destruct (Z.geb_spec a b); try lia
             | |- context [(?a >? ?b)%Z] => destruct (Z.gtb_spec a b); try lia
             end;
      now repeat split.
Qed.

End DecimalProperties.

Section DaemonProperties.

Variable IntSize : Z.
Variables (RuntimeClient Device : Type).
Variable Hostname : Device -> string.

Local Abbreviation parseGrpcPort := (main.parseGrpcPort IntSize).
Local Abbreviation Atoi := (strconv.Atoi IntSize).
Local Abbreviation Action := (main.Action IntSize Hostname).

Lemma parseGrpcPort_host_port (host text : string) :
  strings.Count host ":" = 0 -> strings.Count text ":" = 0 ->
  parseGrpcPort (host ++ ":" ++ text)
  = match Atoi text with
    | inl err =>
        inl (main.Panicf "Unable to parse grpc port: %s" [main.aNumError err])
    | inr port => inr port
    end.
Proof.
  intros Hh Ht. unfold main.parseGrpcPort.
  change (host ++ ":" ++ text)%string with (host ++ String ":" text)%string.
  rewrite (Split_at_first_separator ":" host text Hh).
  now rewrite (Split_without_separator ":" text Ht).
Qed.

Lemma parseGrpcPort_colons (addr : string) :
  strings.Count addr ":" <> 1 ->
  parseGrpcPort addr
  = inl (main.Panicf "Invalid formated grpc address [%s]" [main.aText addr]).
Proof.
  intros H. unfold main.parseGrpcPort.
  rewrite Split_length. cbn [Nat.eqb].
  destruct (Nat.eqb_spec (strings.Count addr ":") 1); [contradiction|].
  reflexivity.
Qed.

(** X13: [parseGrpcPort] returns a port exactly for an address of the
    form host:text with one colon in all, whose text [Atoi] reads as
    that port; the host is not looked at and may be empty. *)
Theorem parseGrpcPort_accepts_host_colon_port :
  forall (addr : string) (port : Z),
    parseGrpcPort addr = inr port <->
    exists host text,
      addr = (host ++ ":" ++ text)%string /\
      strings.Count host ":" = 0 /\ strings.Count text ":" = 0 /\
      Atoi text = inr port.
Proof.
  intros addr port. split.
  - intros H. destruct (Nat.eq_dec (strings.Count addr ":") 1) as [Hc|Hc].
    + destruct (Count_one ":" addr Hc) as (host & text & -> & Hh & Ht).
      exists host, text. repeat split; trivial.
      change (host ++ String ":" text)%string
        with (host ++ ":" ++ text)%string in H.
      rewrite (parseGrpcPort_host_port host text Hh Ht) in H.
      destruct (Atoi text); [discriminate | now injection H as ->].
    + rewrite (parseGrpcPort_colons addr Hc) in H. discriminate.
  - intros (host & text & -> & Hh & Ht & Ha).
    rewrite (parseGrpcPort_host_port host text Hh Ht). now rewrite Ha.
Qed.

(** X14: [parseGrpcPort] panics with "Invalid formated grpc address"
    exactly when the address does not hold one colon (none, or several
    as in an IPv6 address); for host:text with one colon it panics with
    "Unable to parse grpc port" and [Atoi]'s error exactly when [Atoi]
    fails on the text, as it does on an empty text. *)
Theorem parseGrpcPort_panics :
  forall addr : string,
    (strings.Count addr ":" <> 1 <->
     parseGrpcPort addr
     = inl (main.Panicf "Invalid formated grpc address [%s]" [main.aText addr])) /\
    (forall host text err,
        addr = (host ++ ":" ++ text)%string ->
        strings.Count host ":" = 0 -> strings.Count text ":" = 0 ->
        (Atoi text = inl err <->
         parseGrpcPort addr
         = inl (main.Panicf "Unable to parse grpc port: %s" [main.aNumError err]))) /\
    (forall host,
        addr = (host ++ ":")%string -> strings.Count host ":" = 0 ->
        parseGrpcPort addr
        = inl (main.Panicf "Unable to parse grpc port: %s"
                 [main.aNumError (strconv.mkNumError "Atoi" "" strconv.ErrSyntax)])).
Proof.
  intros addr. split; [|split].
  - split; [apply parseGrpcPort_colons|].
    intros H Hc. destruct (Count_one ":" addr Hc) as (host & text & -> & Hh & Ht).
    change (host ++ String ":" text)%string
      with (host ++ ":" ++ text)%string in H.
    rewrite (parseGrpcPort_host_port host text Hh Ht) in H.
    destruct (Atoi text); discriminate.
  - intros host text err -> Hh Ht.
    rewrite (parseGrpcPort_host_port host text Hh Ht).
    destruct (Atoi text) as [err'|port]; split; intros H;
      try discriminate; now injection H as ->.
  - intros host -> Hh.
    change (host ++ ":")%string with (host ++ ":" ++ "")%string.
    now rewrite (parseGrpcPort_host_port host "" Hh eq_refl).
Qed.

(** X15: for a host without colon, [parseGrpcPort] maps host:numeral,
    bare or with a plus sign, to the number when it is below
    [2^(IntSize-1)], and host:-numeral to its negative when the number
    is at most [2^(IntSize-1)]; beyond that it panics with [Atoi]'s range
    error.  No port is refused for being negative or above 65535. *)
Theorem parseGrpcPort_of_decimal :
  forall (host : string) (n : nat),
    (2 <= IntSize <= 64)%Z ->
    strings.Count host ":" = 0 ->
    let range text :=
      inl (main.Panicf "Unable to parse grpc port: %s"
             [main.aNumError (strconv.mkNumError "Atoi" text strconv.ErrRange)]) in
    parseGrpcPort (host ++ ":" ++ decimal n)
    = (if (Z.of_nat n <? 2 ^ (IntSize - 1))%Z then inr (Z.of_nat n)
       else range (decimal n)) /\
    parseGrpcPort (host ++ ":" ++ "+" ++ decimal n)
    = (if (Z.of_nat n <? 2 ^ (IntSize - 1))%Z then inr (Z.of_nat n)
       else range ("+" ++ decimal n)%string) /\
    parseGrpcPort (host ++ ":" ++ "-" ++ decimal n)
    = (if (Z.of_nat n <=? 2 ^ (IntSize - 1))%Z then inr (- Z.of_nat n)%Z
       else range ("-" ++ decimal n)%string).
Proof.
  intros host n Hsize Hh range.
  destruct (Atoi_decimal IntSize Hsize n) as (Hbare & Hplus & Hminus).
  assert (Hd : strings.Count (decimal n) ":" = 0)
    by (rewrite decimal_digits; apply Count_decimal).
  rewrite !parseGrpcPort_host_port; trivial.
  - rewrite Hbare, Hplus, Hminus. subst range.
    destruct (Z.of_nat n <? 2 ^ (IntSize - 1))%Z,
      (Z.of_nat n <=? 2 ^ (IntSize - 1))%Z; now repeat split.
Qed.

Ltac by_flags flags :=
  destruct flags as [grpc lifecycle disco listen]; unfold main.Action;
  cbn [main.grpc_api main.lifecycle_controller main.discovery
       main.grpc_api_listen];
  destruct grpc, lifecycle, disco; cbn [andb app Nat.eqb];
  try match goal with
      | |- context [main.parseGrpcPort IntSize ?a] =>
          destruct (main.parseGrpcPort IntSize a) eqn:?
      end;
  cbn [app Nat.eqb fst snd].

(** X16: [Action] returns the "Nothing to run" error, having logged
    nothing and given the supervisor nothing, exactly when both the gRPC
    API and the lifecycle controller are disabled: the discovery flag
    alone runs nothing, though the message names it. *)
Theorem Action_nothing_to_run :
  forall (flags : main.Flags) (device : Device) (client : RuntimeClient),
    (main.grpc_api flags = false /\ main.lifecycle_controller flags = false) <->
    Action flags device client = ([], main.returned (Some nothingToRun)).
Proof.
  intros flags device client. by_flags flags;
    (split; [intros [H1 H2]; try discriminate; reflexivity
            | intros H; try discriminate H; now split]).
Qed.

(** X17: when [Action] returns without error, it has given the
    supervisor the API server if the gRPC API is enabled, then the
    lifecycle controller if that is enabled, then the discovery server,
    on the device's host name and the port of the listen address, if
    both the gRPC API and discovery are enabled; at least one service;
    and it has called [Serve] once, as its last step. *)
Theorem Action_serves_the_enabled_services :
  forall (flags : main.Flags) (device : Device) (client : RuntimeClient),
    snd (Action flags device client) = main.returned None ->
    let steps := fst (Action flags device client) in
    let listen := main.grpc_api_listen flags in
    (exists ports,
        (if main.grpc_api flags && main.discovery flags
         then exists port, parseGrpcPort listen = inr port /\ ports = [port]
         else ports = []) /\
        main.added steps
        = ((if main.grpc_api flags
            then [main.api_NewServer listen client device] else [])
           ++ (if main.lifecycle_controller flags
               then [main.controller_NewLifecycle client] else [])
           ++ map (main.discovery_NewServer (Hostname device)) ports)%list) /\
    main.added steps <> [] /\
    exists before,
      steps = (before ++ [main.Serve])%list /\ main.serves before = false.
Proof.
  intros flags device client. by_flags flags; intros H; try discriminate H;
    (split; [eexists; split;
             [first [reflexivity | eexists; split; reflexivity]
             | reflexivity]
            | split; [discriminate|]]);
    match goal with
    | |- exists before, ?steps = _ /\ _ =>
        exists (removelast steps); split; reflexivity
    end.
Qed.

(** X18: [Action] panics exactly when the gRPC API and discovery are
    both enabled and [parseGrpcPort] panics on the listen address, with
    that panic; the API server, and the lifecycle controller if enabled,
    have then been given to the supervisor, and [Serve] is not called.
    With discovery disabled the listen address is never parsed here. *)
Theorem Action_panics_on_the_listen_address :
  forall (flags : main.Flags) (device : Device) (client : RuntimeClient)
         (p : main.panic),
    (snd (Action flags device client) = main.panicked p <->
     main.grpc_api flags && main.discovery flags = true /\
     parseGrpcPort (main.grpc_api_listen flags) = inl p) /\
    (snd (Action flags device client) = main.panicked p ->
     main.serves (fst (Action flags device client)) = false /\
     main.added (fst (Action flags device client))
     = (main.api_NewServer (main.grpc_api_listen flags) client device
          :: (if main.lifecycle_controller flags
              then [main.controller_NewLifecycle client] else []))).
Proof.
  intros flags device client p. by_flags flags;
    (split; [split; [intros H; try discriminate H; injection H as ->;
                     now split
                    | intros [H1 H2]; try discriminate; congruence]
            | intros H; try discriminate H; now split]).
Qed.

End DaemonProperties.

(** * Runs on the scripted engine *)

Section Runs.

Local Abbreviation CreateContainer :=
  (CreateContainer (E := Script) examplePlugin labels).
Local Abbreviation GetNamespaces := (GetNamespaces (E := Script) exampleNamespace).
Local Abbreviation GetContainerTaskStatus :=
  (GetContainerTaskStatus (E := Script) exampleNamespace).
Local Abbreviation run := (run (E := Script) exampleNamespace examplePlugin labels).

(** C1 fails on the code: when the generation of the spec fails (engine
    call 4 of [CreateContainer]), the engine's error is returned as it
    is, and [resetConnection] is not called; the same when the listing of
    the namespaces fails (engine call 1 of [GetNamespaces]). *)
Theorem CreateContainer_returns_spec_failure_bare :
  let '(r, _, d) := CreateContainer pod1 container1 (start 0 [(4, boom)]) in
  let '(r', _, d') := GetNamespaces (start 0 [(1, boom)]) in
  (failed kGenerateSpec boom d /\
   r = inl boom /\
   Error boom = "rpc error: unavailable" /\
   entered is_resetConnection d = 0) /\
  (failed kNamespaceList boom d' /\
   r' = inl boom /\
   entered is_resetConnection d' = 0).
Proof. cbn. unfold failed. cbn. intuition. Qed.

(** C2 fails as stated: when [CreateContainer] cannot establish its
    connection (engine call 0), it returns without entering
    [ensureImagePulled]. *)
Lemma CreateContainer_unconnected_never_pulls :
  let '(r, _, d) := CreateContainer pod1 container1 (start 0 [(0, boom)]) in
  r = inl (withMessage boom "Unable to create connection to containerd") /\
  entered is_ensureImagePulled d = 0.
Proof. cbn. split; reflexivity. Qed.

(** the pull fails (engine call 2) *)
Lemma CreateContainer_pull_failure :
  let '(r, _, d) := CreateContainer pod1 container1 (start 0 [(2, boom)]) in
  entered is_ensureImagePulled d = 1 /\
  failed kPull boom d /\
  (exists msg, r = inl (withMessage boom msg)) /\
  called kNewContainer d = 0.
Proof.
  generalize (CreateContainer_pulls_once_connected examplePlugin labels
                pod1 container1 (start 0 [(2, boom)])).
  cbn. unfold failed. cbn. intros (H1 & _ & H3).
  split; [now apply H1|]. split; [tauto|]. apply (H3 boom). tauto.
Defined.



(** the container has no task (engine call 0 answers "not found") *)
Lemma IsContainerRunning_without_task :
  let '(r, _, d) := IsContainerRunning handle1 (start 0 [(0, absent)]) in
  containerCalls d = [(kTask, handle1)] /\
  failed kTask absent d /\ IsNotFound absent = true /\ r = (false, None).
Proof.
  generalize (IsContainerRunning_by_lookup handle1 (start 0 [(0, absent)])).
  cbn. unfold failed. cbn. intros (Hc & _ & H & _).
  split; [exact Hc|].
  split; [tauto|]. split; [reflexivity|]. apply (H absent); tauto.
Defined.

(** the container has no task (engine call 0) and its deletion fails
    (engine call 1) *)
Lemma StopContainer_without_task :
  let '(r, s', d) :=
    StopContainer handle1 (start 0 [(0, absent); (1, boom)]) in
  failed kTask absent d /\
  failed kContainerDelete boom d /\
  containerCalls d = [(kTask, handle1); (kContainerDelete, handle1)] /\
  called kContainerDelete d = 1 /\
  exists msg,
    r = Some (withMessage boom msg) /\ Mentions msg "c1" /\ invalidated s' d.
Proof.
  generalize (StopContainer_surfaces_only_the_deletion handle1
                (start 0 [(0, absent); (1, boom)])).
  cbn. unfold failed. cbn. intros (H0 & H1 & _ & H3 & _).
  split; [tauto|]. split; [tauto|]. split; [exact H0|]. split; [exact H1|].
  apply (H3 boom). tauto.
Defined.

(** the engine reports [default], [staging] and [prod] *)
Lemma GetNamespaces_of_three :
  let '(r, _, d) := GetNamespaces (start 0 []) in
  succeeded kNew d /\
  listRequests d = [containerd.mkClient 0 exampleNamespace] /\
  listings d
  = [[containerd.mkNamespace "default" []; containerd.mkNamespace "staging" [];
      containerd.mkNamespace "prod" []]] /\
  r = inr ["staging"; "prod"] /\
  exists names,
    r = inr names /\
    ~ In "default" names /\
    subsequence names ["default"; "staging"; "prod"].
Proof.
  generalize (GetNamespaces_drops_default exampleNamespace (start 0 [])).
  cbn. unfold succeeded. cbn. intros (Hask & _ & H).
  split; [tauto|]. split; [apply Hask; tauto|].
  split; [reflexivity|]. split; [reflexivity|].
  destruct (H _ (or_introl eq_refl)) as (names & Hr & Hd & _ & Hs & _).
  exists names. now repeat split.
Defined.


(** C7 fails as stated: a container is created, starting it fails
    (engine call 6), and the next operation, on the same handle, dials
    nothing: its engine call goes through connection 0, as the failed
    one's did. *)
Lemma next_operation_on_a_handle_dials_nothing :
  let '(created, s1, _) :=
    CreateContainer pod1 container1 (start 0 [(6, boom)]) in
  let '(r2, s2, d2) := run (opStartContainer handle1) s1 in
  let '(r3, s3, d3) := run (opIsContainerRunning handle1) s2 in
  created = inr handle1 /\
  r2 = Some (withMessage boom "Error while creating task for container [c1]") /\
  connectionsUsed d2 = [0] /\
  called kNew d3 = 0 /\
  connectionsUsed d3 = [0] /\
  clients s3 = clients s2.
Proof. vm_compute. repeat split; reflexivity. Qed.

(** the listing of the containers fails (engine call 1), and the next
    operation lists the namespaces *)
Lemma GetNamespaces_after_a_failed_listing :
  let s := start 0 [(1, boom)] in
  let s1 := final (run (opGetContainers "edge") s) in
  value (run (opGetContainers "edge") s)
  = Some (withMessage boom "Error while getting list of containers") /\
  connectionsUsed (trace (run (opGetContainers "edge") s)) = [0] /\
  connectionsUsed (trace (run opGetNamespaces s1)) = [1] /\
  clients s1 <= 1 /\
  ~ In 1 (connectionsUsed (trace (run (opGetContainers "edge") s))).
Proof.
  intros s s1.
  assert (He : established s (opGetContainers "edge")) by exact I.
  assert (Hv : value (run (opGetContainers "edge") s) <> None)
    by (vm_compute; discriminate).
  split; [reflexivity|]. split; [reflexivity|]. split; [reflexivity|].
  apply (proj2 (proj1 (next_operation_after_a_failure exampleNamespace
                         examplePlugin labels s (opGetContainers "edge")
                         opGetNamespaces He Hv) eq_refl)
           1 (or_introl eq_refl)).
Defined.

(** C10 fails as stated: a container is created and then started; the
    engine calls of [StartContainer] go through connection 0, which
    [CreateContainer] established in the operation before, and
    [StartContainer] dials nothing. *)
Lemma StartContainer_goes_through_the_creating_connection :
  let '(created, s1, d1) := CreateContainer pod1 container1 (start 0 []) in
  let '(r2, s2, d2) := run (opStartContainer handle1) s1 in
  created = inr handle1 /\
  succeeded kNew d1 /\
  In 0 (connectionsUsed d1) /\
  r2 = None /\
  called kNew d2 = 0 /\
  connectionsUsed d2 = [0; 0].
Proof. vm_compute. intuition. Qed.

(** the cached connection after two operations *)
Lemma client_absent_after_two_operations :
  client (c (final (run opGetNamespaces
                      (final (run (opCreateContainer pod1 container1)
                                (start 0 [])))))) = None.
Proof.
  apply (proj1 (cached_connection_is_never_set exampleNamespace examplePlugin
                  labels)).
  apply reachable_run. apply reachable_run. apply reachable_new.
Defined.

(** the listing of the namespaces cannot connect (engine call 0) *)
Lemma GetNamespaces_unconnected :
  let '(r, s', d) := run opGetNamespaces (start 0 [(0, boom)]) in
  failed kNew boom d /\
  answers d = [(kNew, Some boom)] /\
  r = Some (withMessage boom "Unable to create connection to containerd") /\
  entered is_resetConnection d = 0.
Proof.
  generalize (connection_failure_ends_the_operation exampleNamespace
                examplePlugin labels opGetNamespaces (start 0 [(0, boom)])).
  cbn. unfold failed. cbn. intros H.
  destruct (H boom (or_introl eq_refl)) as (_ & Hreset & _ & Hr).
  split; [tauto|]. split; [reflexivity|]. now split.
Defined.

(** the deletion of the container fails (engine call 2) *)
Lemma StopContainer_error_stems_from_the_deletion :
  let s := start 0 [(2, boom)] in
  let err := withMessage boom "Failed to delete container c1" in
  value (run (opStopContainer handle1) s) = Some err /\
  exists k e prefix,
    failed k e (trace (run (opStopContainer handle1) s)) /\
    Cause err = Cause e /\
    IsNotFound err = IsNotFound e /\
    Error err = (prefix ++ Error e)%string.
Proof.
  intros s err.
  assert (H : value (run (opStopContainer handle1) s) = Some err)
    by reflexivity.
  split; [exact H|].
  exact (returned_errors_stem_from_the_engine exampleNamespace examplePlugin
           labels (opStopContainer handle1) s err H).
Defined.

(** every engine call succeeds *)
Lemma CreateContainer_of_container1 :
  let s := start 0 [] in
  value (CreateContainer pod1 container1 s) = inr handle1 /\
  handle1
  = containerd.mkContainer (model.ID container1)
      (containerd.mkClient (clients s) (model.GetNamespace pod1)) /\
  answers (trace (CreateContainer pod1 container1 s))
  = [(kNew, None); (kNew, None); (kPull, None); (kUnpack, None);
     (kGenerateSpec, None); (kNewContainer, None)].
Proof.
  intros s.
  assert (H : value (CreateContainer pod1 container1 s) = inr handle1)
    by reflexivity.
  split; [exact H|].
  destruct (CreateContainer_success examplePlugin labels pod1 container1 s
              handle1 H) as (H1 & H2 & _).
  split; [exact H1 | exact H2].
Defined.

(** the engine lists two containers *)
Lemma GetContainers_of_two :
  let s := start 0 [] in
  containerListings (trace (GetContainers "edge" s)) = [["c1"; "c2"]] /\
  value (GetContainers "edge" s)
  = inr [containerd.mkContainer "c1" (containerd.mkClient 0 "edge");
         containerd.mkContainer "c2" (containerd.mkClient 0 "edge")].
Proof.
  intros s. split; [reflexivity|].
  exact (proj1 (GetContainers_success "edge" s ["c1"; "c2"]
                  (or_introl eq_refl))).
Defined.

(** the container has a task *)
Lemma StopContainer_with_a_task :
  let '(r, _, d) := StopContainer handle1 (start 0 []) in
  succeeded kTask d /\
  r = None /\
  map fst (answers d) = [kTask; kTaskDelete; kContainerDelete] /\
  containerCalls d = [(kTask, handle1); (kContainerDelete, handle1)] /\
  exists pid,
    pids d = [pid] /\
    tasksTouched d = [containerd.mkTask "c1" pid (containerd.mkClient 0 "edge")].
Proof.
  generalize (StopContainer_deletes_the_task_first handle1 (start 0 [])).
  cbn. unfold succeeded. cbn. intros [H _].
  destruct (H (or_introl eq_refl)) as (Horder & Hcalls & Htask).
  split; [tauto|]. split; [reflexivity|]. split; [exact Horder|].
  now split.
Defined.


(** ports of the listen address, on a 64-bit platform *)
Lemma parseGrpcPort_examples :
  main.parseGrpcPort 64 "localhost:5000" = inr 5000%Z /\
  main.parseGrpcPort 64 ":+70000" = inr 70000%Z /\
  main.parseGrpcPort 64 "0.0.0.0:-1" = inr (-1)%Z.
Proof.
  assert (Hsize : (2 <= 64 <= 64)%Z) by lia.
  split; [|split].
  - exact (proj1 (parseGrpcPort_of_decimal 64 "localhost" 5000 Hsize eq_refl)).
  - exact (proj1 (proj2 (parseGrpcPort_of_decimal 64 "" 70000 Hsize eq_refl))).
  - exact (proj2 (proj2 (parseGrpcPort_of_decimal 64 "0.0.0.0" 1 Hsize eq_refl))).
Defined.

(** the daemon with its default flags, on a 64-bit platform *)
Lemma Action_with_the_default_flags :
  let ran := main.Action 64 (fun host : string => host) defaultFlags "device1" tt in
  snd ran = main.returned None /\
  main.added (fst ran)
  = [main.api_NewServer "localhost:5000" tt "device1";
     main.controller_NewLifecycle tt;
     main.discovery_NewServer "device1" 5000%Z] /\
  exists before,
    fst ran = (before ++ [main.Serve])%list /\ main.serves before = false.
Proof.
  intros ran.
  assert (H : snd ran = main.returned None) by (vm_compute; reflexivity).
  split; [exact H|]. split; [vm_compute; reflexivity|].
  exact (proj2 (proj2 (Action_serves_the_enabled_services 64 unit string
                         (fun host : string => host) defaultFlags "device1"
                         tt H))).
Defined.

(** C9 fails as stated: the wrapper is built without timeout on a
    context that has a deadline; the context that [GetNamespaces]
    derives, with [WithCancel], has that deadline. *)
Lemma context_without_timeout_keeps_the_deadline :
  let s := startUnderDeadline in
  let '(_, _, d) := run opGetNamespaces s in
  (timeout (c s) >? 0)%Z = false /\
  derivedContext s = cancelCtx 1 (timerCtx 0 Background 30) /\
  In (Derived (derivedContext s)) d /\
  hasDeadline (derivedContext s) = true.
Proof. vm_compute. intuition. Qed.

(** the same run, by the theorem *)
Lemma GetNamespaces_under_a_deadline :
  let s := startUnderDeadline in
  let '(_, s', d) := run opGetNamespaces s in
  hasDeadline (derivedContext s) = true /\
  contexts s < contexts s' /\
  exists body,
    d = (Enter m_GetNamespaces :: Enter m_getContext
           :: Derived (derivedContext s) :: body ++ [Cancel 1])%list /\
    ~ In (Cancel 1) body.
Proof.
  intros s.
  generalize (operations_derive_and_cancel_a_context exampleNamespace
                examplePlugin labels opGetNamespaces s).
  subst s. cbn. intros H. exact H.
Defined.

(** the lookup finds a task whose status is none of the listed ones *)
Lemma GetContainerTaskStatus_of_an_unlisted_status :
  let '(r, _, d) :=
    GetContainerTaskStatus "c1"
      (startAnswering (Some (containerd.mkProcess 7%Z))) in
  r = Returned "7" /\
  exists p,
    In (Some p) (processes d) /\
    ~ (0 <= containerd.processStatus p <= 5)%Z /\
    "7" = itoa (containerd.processStatus p).
Proof.
  generalize (GetContainerTaskStatus_names_and_warnings exampleNamespace "c1"
                (startAnswering (Some (containerd.mkProcess 7%Z)))).
  cbn. intros (H & _). split; [reflexivity|].
  destruct (H "7" eq_refl) as [Hin|Hp]; [|exact Hp].
  cbn in Hin. repeat (destruct Hin as [Hin|Hin]; [discriminate Hin|]).
  contradiction.
Defined.

End Runs.
